(** * The activities sign-up page: a model of [src/static/app.js]

    The script drives one page: it loads the activity map from the server,
    draws one card per activity, fills the dropdown of the sign-up form, and
    sends sign-up and unregister requests.

    - The page is an explicit record ([Page]): the list container, the
      dropdown, the email field, the message area, the pending timers, and
      a trace of what left the page (requests, console lines).
    - Every function of the script is a computation in a state-and-exception
      monad over the page ([M]): a [throw] keeps the effects made before it,
      as a JavaScript exception does, and [try_catch] is [try]/[catch].
    - The server is an oracle ([Network]) that says how the n-th request is
      answered: the promise rejects, or a response comes with a status and a
      body that is JSON or not.  Bodies that parse are typed as the data
      model types them: a map of activities for the listing; for a sign-up
      or an unregister request a JSON object whose [message] and [detail]
      are each absent or a string.  JSON bodies of other shapes ([null], a
      [detail] that is a list, an entry that is no activity) are not
      represented, and the properties say so where it matters.
    - Markup is kept as the strings the script builds, byte for byte; the
      browser's parsing of it is not modelled.  Strings are byte strings:
      the UTF-8 form of the text, a lone surrogate (which JavaScript strings
      may hold) being written as its three bytes [ED A0..BF 80..BF].
    - One handler runs to its end before the next event is looked at; the
      reload a sign-up starts without waiting is resumed right after the
      handler. *)

From Stdlib Require Import String Ascii List ZArith Bool Lia DecimalString DecimalZ.
Import ListNotations.
Local Open Scope string_scope.

(** ** Strings *)

Module Text.

(** The double quote, for markup literals. *)
Definition dq : string := String (ascii_of_nat 34) EmptyString.

(** [q s] is [s] between double quotes: an attribute value. *)
Definition q (s : string) : string := dq ++ s ++ dq.

(** [Array.prototype.join('')] on an array of strings. *)
Definition join (parts : list string) : string := String.concat "" parts.

(** The integers a JavaScript number holds exactly: up to
    [Number.MAX_SAFE_INTEGER] = 2^53 - 1 in magnitude. *)
Definition safe_integer (n : Z) : bool :=
  (Z.abs n <=? 9007199254740991)%Z.

(** A safe integer printed by a template literal: its decimal digits, with
    a minus sign when negative.  (Beyond the safe integers a JavaScript
    number is a rounded double, printed with an exponent from 10^21 on: the
    properties about printed numbers carry [safe_integer] as a hypothesis.) *)
Definition Number_toString (n : Z) : string := NilZero.string_of_int (Z.to_int n).

(** [decimal_of s n]: [s] is the decimal numeral of [n], read by the
    library's parser: digits only after an optional minus sign, no leading
    zero. *)
Definition decimal_of (s : string) (n : Z) : Prop :=
  exists d, NilZero.int_of_string s = Some d /\ Decimal.norm d = d /\ Z.of_int d = n.

(** [starts_with needle hay]: [hay] begins with [needle]. *)
Fixpoint starts_with (needle hay : string) : bool :=
  match needle, hay with
  | EmptyString, _ => true
  | String _ _, EmptyString => false
  | String a needle', String b hay' => Ascii.eqb a b && starts_with needle' hay'
  end.

(** [occurrences needle hay]: at how many positions of [hay] does [needle]
    start.  This is the page's view of markup: how many elements with a given
    opening tag a fragment holds. *)
Fixpoint occurrences (needle hay : string) : nat :=
  match hay with
  | EmptyString => if starts_with needle EmptyString then 1 else 0
  | String _ rest =>
      (if starts_with needle hay then 1 else 0) + occurrences needle rest
  end.

(** [contains needle hay]: [needle] is a substring of [hay]. *)
Definition contains (needle hay : string) : Prop :=
  exists before after, hay = before ++ needle ++ after.

Fixpoint all_chars (p : ascii -> bool) (s : string) : bool :=
  match s with
  | EmptyString => true
  | String c rest => p c && all_chars p rest
  end.

(** No character of [s] opens a tag: [s] is plain text, not markup. *)
Definition markup_free (s : string) : bool :=
  all_chars (fun c => negb (Ascii.eqb "<" c)) s.

End Text.

(** ** [encodeURIComponent]

    [encodeURIComponent] escapes the UTF-8 bytes of its argument: every byte
    that is not an unreserved mark becomes [%XX] in upper-case hexadecimal.
    It throws [URIError] when its argument holds a lone surrogate. *)

Module Uri.
Import Text.

Definition unreserved (c : ascii) : bool :=
  let n := nat_of_ascii c in
  ((65 <=? n) && (n <=? 90))%nat          (* A-Z *)
  || ((97 <=? n) && (n <=? 122))%nat      (* a-z *)
  || ((48 <=? n) && (n <=? 57))%nat       (* 0-9 *)
  || existsb (Ascii.eqb c)
       ["-"; "_"; "."; "!"; "~"; "*"; "'"; "("; ")"]%char.

Definition hex_digit (n : nat) : ascii :=
  if (n <? 10)%nat then ascii_of_nat (48 + n) else ascii_of_nat (55 + n).

Definition escape (c : ascii) : string :=
  let n := nat_of_ascii c in
  String "%" (String (hex_digit (n / 16)) (String (hex_digit (n mod 16)) EmptyString)).

(** The escaping itself, byte by byte. *)
Fixpoint percent_encode (s : string) : string :=
  match s with
  | EmptyString => EmptyString
  | String c rest =>
      if unreserved c then String c (percent_encode rest)
      else escape c ++ percent_encode rest
  end.

(** The first two bytes of a surrogate written as three bytes: [ED] then
    [A0..BF].  (In the UTF-8 form of a character, [ED] is followed by
    [80..9F].) *)
Definition surrogate_lead (c d : ascii) : bool :=
  ((nat_of_ascii c =? 237) && (160 <=? nat_of_ascii d) && (nat_of_ascii d <=? 191))%nat.

(** [s] holds no surrogate as such.  (Surrogates in pairs are one character
    of four bytes in the UTF-8 form, so each one written as such is alone.) *)
Fixpoint well_formed (s : string) : bool :=
  match s with
  | String c (String d _ as rest) => negb (surrogate_lead c d) && well_formed rest
  | _ => true
  end.

(** [encodeURIComponent(s)]; [None]: it throws [URIError]. *)
Definition encodeURIComponent (s : string) : option string :=
  if well_formed s then Some (percent_encode s) else None.

(** The inverse reading of an escaped string (RFC 3986 percent-decoding);
    the script never calls it, it says what the server reads back. *)
Definition hex_value (c : ascii) : option nat :=
  let n := nat_of_ascii c in
  if ((48 <=? n) && (n <=? 57))%nat then Some (n - 48)
  else if ((65 <=? n) && (n <=? 70))%nat then Some (n - 55)
  else if ((97 <=? n) && (n <=? 102))%nat then Some (n - 87)
  else None.

Fixpoint percent_decode (s : string) : option string :=
  match s with
  | EmptyString => Some EmptyString
  | String "%" (String h (String l rest)) =>
      match hex_value h, hex_value l, percent_decode rest with
      | Some a, Some b, Some r => Some (String (ascii_of_nat (16 * a + b)) r)
      | _, _, _ => None
      end
  | String "%" _ => None
  | String c rest =>
      match percent_decode rest with
      | Some r => Some (String c r)
      | None => None
      end
  end.

(** A character that may stand in an escaped string. *)
Definition escaped_char (c : ascii) : bool :=
  unreserved c || Ascii.eqb c "%".
End Uri.

(** ** Data model *)

(** One activity, as the server's JSON gives it. *)
Record Activity := {
  description : string;
  schedule : string;
  max_participants : Z;
  participants : list string
}.

(** The parsed listing, when it is a map of activities: the object's
    entries in the order [Object.entries] enumerates them, one per key. *)
Definition ActivityMap := list (string * Activity).

(** The parsed body of a sign-up or unregister response, when it is a JSON
    object whose [message] and [detail] are each absent ([None]) or a
    string: the [{message}] and [{detail}] of the server's interface. *)
Record Result := {
  message : option string;
  detail : option string
}.

(** ** The network *)

Inductive Method := GET | POST | DELETE.

Record Request := {
  method : Method;
  url : string;
  headers : list (string * string);
  body : option string
}.

(** What [fetch] resolves to: a response with its status code and its body as
    [response.json()] reads it ([None]: the body is not JSON, and
    [response.json()] rejects with a [SyntaxError]). *)
Record Response (T : Type) := {
  status : Z;
  parsed : option T
}.
Arguments status {T} _.
Arguments parsed {T} _.

(** [response.ok]: the status is in the range 200-299. *)
Definition ok {T} (r : Response T) : bool :=
  (200 <=? status r)%Z && (status r <=? 299)%Z.

(** The outcome of one [fetch]: the promise rejects (no response at all), or
    it resolves to a response. *)
Inductive Reply (T : Type) :=
| Rejected
| Responded (r : Response T).
Arguments Rejected {T}.
Arguments Responded {T} _.

(** The server: how the request sent after [n] earlier ones is answered. *)
Record Network := {
  list_activities : nat -> Reply ActivityMap;
  mutate : nat -> Request -> Reply Result
}.

(** ** The page *)

(** What a [catch] block receives. *)
Inductive Error :=
| NetworkError                      (* fetch rejected *)
| SyntaxError                       (* response.json() on a body that is not JSON *)
| URIError                          (* encodeURIComponent on a lone surrogate *)
| ReferenceError (identifier : string).

(** A [div] made by [document.createElement]. *)
Record Element := {
  className : string;
  innerHTML : string
}.

(** An [option] of the dropdown. *)
Record OptionElement := {
  value : string;
  textContent : string;
  defaultSelected : bool
}.

(** [#activities-list]: the markup last assigned to its [innerHTML] and the
    elements appended since. *)
Record Container := {
  markup : string;
  children : list Element
}.

(** [#activity]: the dropdown of the form. *)
Record Select := {
  options : list OptionElement;
  selectedIndex : Z
}.

(** [#email]. *)
Record Input := {
  input_value : string;
  defaultValue : string
}.

(** [#message]. *)
Record MessageArea := {
  text : string;
  classList : list string
}.

(** The callbacks the script hands to [setTimeout]. *)
Inductive Callback := HideMessage.

Record Timer := {
  delay : Z;
  callback : Callback
}.

(** The trace of a run, in order: the requests sent, the lines written to
    the console, and the two calls the properties speak of, the resets of
    the form and the entries into [fetchActivities]. *)
Inductive Event :=
| Fetch (req : Request)
| ConsoleError (label : string) (error : Error)
| FormReset
| Enter_fetchActivities (refreshDropdown : bool).

Record Page := {
  activitiesList : Container;
  activitySelect : Select;
  emailInput : Input;
  messageDiv : MessageArea;
  timers : list Timer;
  trace : list Event
}.

(** ** Computations *)

Inductive Outcome (A : Type) :=
| Normal (a : A)
| Throw (e : Error).
Arguments Normal {A} _.
Arguments Throw {A} _.

Definition M (A : Type) : Type := Page -> Outcome A * Page.

Definition ret {A} (a : A) : M A := fun p => (Normal a, p).

Definition bind {A B} (m : M A) (k : A -> M B) : M B :=
  fun p =>
    match m p with
    | (Normal a, p') => k a p'
    | (Throw e, p') => (Throw e, p')
    end.

Definition throw {A} (e : Error) : M A := fun p => (Throw e, p).

(** [try { m } catch (error) { handler }]. *)
Definition try_catch {A} (m : M A) (handler : Error -> M A) : M A :=
  fun p =>
    match m p with
    | (Normal a, p') => (Normal a, p')
    | (Throw e, p') => handler e p'
    end.

Definition modify (f : Page -> Page) : M unit := fun p => (Normal tt, f p).

Definition gets {A} (f : Page -> A) : M A := fun p => (Normal (f p), p).

Declare Scope js_scope.
Delimit Scope js_scope with js.
Notation "x <- m ;; k" := (bind m (fun x => k))
  (at level 61, m at next level, right associativity) : js_scope.
Notation "m ;; k" := (bind m (fun _ => k))
  (at level 61, right associativity) : js_scope.
Local Open Scope js_scope.

(** [array.forEach(f)]. *)
Fixpoint forEach {A} (f : A -> M unit) (items : list A) : M unit :=
  match items with
  | [] => ret tt
  | x :: rest => f x ;; forEach f rest
  end.

(** The page a computation leaves, and how it ended. *)
Definition run {A} (m : M A) (p : Page) : Page := snd (m p).
Definition outcome {A} (m : M A) (p : Page) : Outcome A := fst (m p).

(** ** Document operations *)

Module Dom.

Definition with_activitiesList (c : Container) (p : Page) : Page :=
  {| activitiesList := c; activitySelect := activitySelect p;
     emailInput := emailInput p; messageDiv := messageDiv p;
     timers := timers p; trace := trace p |}.

Definition with_activitySelect (s : Select) (p : Page) : Page :=
  {| activitiesList := activitiesList p; activitySelect := s;
     emailInput := emailInput p; messageDiv := messageDiv p;
     timers := timers p; trace := trace p |}.

Definition with_emailInput (i : Input) (p : Page) : Page :=
  {| activitiesList := activitiesList p; activitySelect := activitySelect p;
     emailInput := i; messageDiv := messageDiv p;
     timers := timers p; trace := trace p |}.

Definition with_messageDiv (m : MessageArea) (p : Page) : Page :=
  {| activitiesList := activitiesList p; activitySelect := activitySelect p;
     emailInput := emailInput p; messageDiv := m;
     timers := timers p; trace := trace p |}.

Definition with_timers (t : list Timer) (p : Page) : Page :=
  {| activitiesList := activitiesList p; activitySelect := activitySelect p;
     emailInput := emailInput p; messageDiv := messageDiv p;
     timers := t; trace := trace p |}.

Definition emit (e : Event) (p : Page) : Page :=
  {| activitiesList := activitiesList p; activitySelect := activitySelect p;
     emailInput := emailInput p; messageDiv := messageDiv p;
     timers := timers p; trace := trace p ++ [e] |}.

(** [activitiesList.innerHTML = html]: the children go, the markup stays. *)
Definition set_list_innerHTML (html : string) : M unit :=
  modify (with_activitiesList {| markup := html; children := [] |}).

(** [activitiesList.appendChild(card)]. *)
Definition list_appendChild (card : Element) : M unit :=
  modify (fun p =>
    with_activitiesList
      {| markup := markup (activitiesList p);
         children := children (activitiesList p) ++ [card] |} p).

(** The one option that
    [<option value=...>-- Select an activity --</option>] parses to. *)
Definition placeholder : OptionElement :=
  {| value := ""; textContent := "-- Select an activity --";
     defaultSelected := false |}.

(** [activitySelect.innerHTML = '<option value=...>-- Select an activity --</option>']:
    the dropdown holds the placeholder alone, which is then the selected one. *)
Definition set_select_placeholder : M unit :=
  modify (with_activitySelect {| options := [placeholder]; selectedIndex := 0 |}).

(** [activitySelect.appendChild(option)]; a dropdown with nothing selected
    selects its first option. *)
Definition select_appendChild (o : OptionElement) : M unit :=
  modify (fun p =>
    let s := activitySelect p in
    with_activitySelect
      {| options := options s ++ [o];
         selectedIndex := if (selectedIndex s <? 0)%Z then 0%Z else selectedIndex s |} p).

(** [document.getElementById("activity").value]. *)
Definition select_value (s : Select) : string :=
  if (selectedIndex s <? 0)%Z then ""
  else match nth_error (options s) (Z.to_nat (selectedIndex s)) with
       | Some o => value o
       | None => ""
       end.

(** The index a form reset selects: the last option marked [selected] in the
    markup, else the first option, else none. *)
Fixpoint default_index (os : list OptionElement) (i : Z) (found : option Z) : Z :=
  match os with
  | [] => match found with Some k => k | None => if (0 <? i)%Z then 0%Z else (-1)%Z end
  | o :: rest =>
      default_index rest (i + 1)%Z (if defaultSelected o then Some i else found)
  end.

(** [signupForm.reset()]. *)
Definition form_reset : M unit :=
  modify (fun p =>
    emit FormReset
      (with_emailInput
         {| input_value := defaultValue (emailInput p);
            defaultValue := defaultValue (emailInput p) |}
         (with_activitySelect
            {| options := options (activitySelect p);
               selectedIndex := default_index (options (activitySelect p)) 0 None |}
            p))).

(** [messageDiv.textContent = s]; [undefined] shows as the empty text. *)
Definition set_message_text (s : option string) : M unit :=
  modify (fun p =>
    with_messageDiv
      {| text := match s with Some t => t | None => "" end;
         classList := classList (messageDiv p) |} p).

(** [messageDiv.className = c]: the class list becomes the one class. *)
Definition set_message_className (c : string) : M unit :=
  modify (fun p =>
    with_messageDiv {| text := text (messageDiv p); classList := [c] |} p).

Definition remove_class (c : string) (l : list string) : list string :=
  filter (fun x => negb (String.eqb x c)) l.

Definition add_class (c : string) (l : list string) : list string :=
  if existsb (String.eqb c) l then l else l ++ [c].

(** [messageDiv.classList.remove(c)]. *)
Definition message_classList_remove (c : string) : M unit :=
  modify (fun p =>
    with_messageDiv
      {| text := text (messageDiv p);
         classList := remove_class c (classList (messageDiv p)) |} p).

(** [messageDiv.classList.add(c)]. *)
Definition message_classList_add (c : string) (p : Page) : Page :=
  with_messageDiv
    {| text := text (messageDiv p);
       classList := add_class c (classList (messageDiv p)) |} p.

(** The message area shows when it does not carry the class [hidden]. *)
Definition visible (m : MessageArea) : bool :=
  negb (existsb (String.eqb "hidden") (classList m)).

(** [setTimeout(callback, delay)]: one more pending timer. *)
Definition setTimeout (cb : Callback) (ms : Z) : M unit :=
  modify (fun p => with_timers (timers p ++ [{| delay := ms; callback := cb |}]) p).

(** [console.error(label, error)]. *)
Definition console_error (label : string) (e : Error) : M unit :=
  modify (emit (ConsoleError label e)).

(** How many requests the page has sent. *)
Definition is_fetch (e : Event) : bool :=
  match e with Fetch _ => true | _ => false end.

Definition requests_sent (p : Page) : nat :=
  List.length (filter is_fetch (trace p)).

(** [fetch(...)]: the request leaves; the reply is what the server gives to
    the request with this number. *)
Definition fetch {T} (server : nat -> Request -> Reply T) (req : Request) : M (Reply T) :=
  fun p => (Normal (server (requests_sent p) req), emit (Fetch req) p).

(** A call [encodeURIComponent(s)]. *)
Definition encode (s : string) : M string :=
  match Uri.encodeURIComponent s with
  | Some escaped => ret escaped
  | None => throw URIError
  end.

(** [await] on the promise [fetch] returned. *)
Definition await {T} (reply : Reply T) : M (Response T) :=
  match reply with
  | Rejected => throw NetworkError
  | Responded r => ret r
  end.

(** [await response.json()]. *)
Definition json {T} (r : Response T) : M T :=
  match parsed r with
  | Some v => ret v
  | None => throw SyntaxError
  end.

End Dom.

(** ** Scopes

    The script declares [fetchActivities] inside the callback it registers
    for [DOMContentLoaded]; [unregisterParticipant] is declared at the top
    level of the file.  An identifier is resolved in the scope of the function
    that names it. *)

Inductive Scope :=
| TopLevel        (* the file's own top level: the global scope *)
| LoadedCallback  (* the body of the DOMContentLoaded callback *).

(** The function declarations of each scope. *)
Definition declared_here (sc : Scope) : list string :=
  match sc with
  | TopLevel => ["unregisterParticipant"]
  | LoadedCallback => ["fetchActivities"]
  end.

(** The scope that encloses [sc], if any. *)
Definition enclosing (sc : Scope) : option Scope :=
  match sc with
  | TopLevel => None
  | LoadedCallback => Some TopLevel
  end.

(** [in_scope sc f]: code written in [sc] can name the function [f]. *)
Definition in_scope (sc : Scope) (f : string) : bool :=
  existsb (String.eqb f) (declared_here sc)
  || match enclosing sc with
     | Some outer => existsb (String.eqb f) (declared_here outer)
     | None => false
     end.

(** ** The script *)

Module App.
Import Text Uri Dom.

(** *** Markup templates (lines 28-48) *)

(** The glyph on the delete button, byte for byte as the file has it. *)
Definition delete_glyph : string :=
  string_of_list_ascii (map ascii_of_nat [195; 162; 197; 147; 226; 128; 147]).

(** One participant row: the template of lines 29-36. *)
Definition participantItem (name email : string) : string :=
  "
                <div class=" ++ q "participant-item" ++ ">
                  <span class=" ++ q "participant-email" ++ ">" ++ email ++ "</span>
                  <button class=" ++ q "delete-btn" ++ " onclick=" ++ dq
    ++ "unregisterParticipant('" ++ name ++ "', '" ++ email ++ "')" ++ dq
    ++ " title=" ++ q "Remove participant" ++ ">
                    " ++ delete_glyph ++ "
                  </button>
                </div>
              ".

Definition no_participants : string :=
  "<p class=" ++ q "no-participants" ++ ">No participants yet</p>".

(** [participantsList] (lines 28-37). *)
Definition participantsList (name : string) (details : Activity) : string :=
  if (0 <? List.length (participants details))%nat
  then "<div class=" ++ q "participants-list" ++ ">"
       ++ join (map (participantItem name) (participants details))
       ++ "</div>"
  else no_participants.

(** The capacity fraction of line 43. *)
Definition capacity (details : Activity) : string :=
  Number_toString (Z.of_nat (List.length (participants details)))
  ++ "/" ++ Number_toString (max_participants details).

(** The card's markup up to the capacity paragraph (lines 39-42). *)
Definition card_head (name : string) (details : Activity) : string :=
  "
          <h4>" ++ name ++ "</h4>
          <p><strong>Description:</strong> " ++ description details ++ "</p>
          <p><strong>Schedule:</strong> " ++ schedule details ++ "</p>
          ".

Definition capacity_paragraph (details : Activity) : string :=
  "<p><strong>Capacity:</strong> " ++ capacity details ++ "</p>".

Definition section_open : string :=
  "
          <div class=" ++ q "participants-section" ++ ">
              <h5>Current Participants:</h5>
              ".

Definition section_close : string :=
  "
          </div>
        ".

(** The value assigned to [activityCard.innerHTML] (lines 39-48). *)
Definition cardHTML (name : string) (details : Activity) : string :=
  card_head name details
  ++ capacity_paragraph details
  ++ section_open ++ participantsList name details ++ section_close.

(** The card of one entry (lines 23-24, 39). *)
Definition activityCard (entry : string * Activity) : Element :=
  {| className := "activity-card"; innerHTML := cardHTML (fst entry) (snd entry) |}.

(** The option of one entry (lines 54-56). *)
Definition activityOption (name : string) : OptionElement :=
  {| value := name; textContent := name; defaultSelected := false |}.

Definition load_failure : string :=
  "<p>Failed to load activities. Please try again later.</p>".

Section Script.

Variable net : Network.

(** *** [fetchActivities] (lines 8-64) *)

(** The body of the [forEach] callback (lines 22-59). *)
Definition renderEntry (refreshDropdown : bool) (entry : string * Activity) : M unit :=
  list_appendChild (activityCard entry) ;;
  if refreshDropdown then select_appendChild (activityOption (fst entry)) else ret tt.

(** [fetchActivities] up to its first [await]: the request leaves. *)
Definition fetchActivities_start (refreshDropdown : bool) : M (Reply ActivityMap) :=
  modify (emit (Enter_fetchActivities refreshDropdown)) ;;
  fetch (fun n _ => list_activities net n)
    {| method := GET; url := "/activities"; headers := []; body := None |}.

(** [fetchActivities] from the moment the reply is there. *)
Definition fetchActivities_resume (refreshDropdown : bool) (reply : Reply ActivityMap) : M unit :=
  try_catch
    (response <- await reply ;;
     activities <- json response ;;
     set_list_innerHTML "" ;;
     (if refreshDropdown then set_select_placeholder else ret tt) ;;
     forEach (renderEntry refreshDropdown) activities)
    (fun error =>
       set_list_innerHTML load_failure ;;
       console_error "Error fetching activities:" error).

Definition fetchActivities (refreshDropdown : bool) : M unit :=
  reply <- fetchActivities_start refreshDropdown ;;
  fetchActivities_resume refreshDropdown reply.

(** A call [fetchActivities(refreshDropdown)] written in scope [sc]. *)
Definition call_fetchActivities (sc : Scope) (refreshDropdown : bool) : M unit :=
  if in_scope sc "fetchActivities" then fetchActivities refreshDropdown
  else throw (ReferenceError "fetchActivities").

(** The same call without [await]: the callee runs to its first [await] and
    the caller goes on; the rest of the callee runs when the reply is there. *)
Definition spawn_fetchActivities (sc : Scope) (refreshDropdown : bool)
  : M (option (Reply ActivityMap)) :=
  if in_scope sc "fetchActivities"
  then reply <- fetchActivities_start refreshDropdown ;; ret (Some reply)
  else throw (ReferenceError "fetchActivities").

Definition form_urlencoded : list (string * string) :=
  [("Content-Type", "application/x-www-form-urlencoded")].

(** [result.detail || "An error occurred"]: the empty string is falsy. *)
Definition detail_or_fallback (result : Result) : string :=
  match detail result with
  | Some d => if String.eqb d "" then "An error occurred" else d
  | None => "An error occurred"
  end.

(** *** The submit handler of the sign-up form (lines 67-109) *)

(** The arguments of [fetch] (lines 75-82), given the two escaped strings. *)
Definition signup_fetch (path value : string) : Request :=
  {| method := POST;
     url := "/activities/" ++ path ++ "/signup";
     headers := form_urlencoded;
     body := Some ("email=" ++ value) |}.

(** The request for [activity] and [email], when both can be escaped. *)
Definition signup_request (activity email : string) : Request :=
  signup_fetch (percent_encode activity) (percent_encode email).

(** The handler up to its own end; what it returns is the reload it started
    and did not wait for, if any. *)
Definition submit_body : M (option (Reply ActivityMap)) :=
  email <- gets (fun p => input_value (emailInput p)) ;;
  activity <- gets (fun p => select_value (activitySelect p)) ;;
  try_catch
    (path <- encode activity ;;
     value <- encode email ;;
     reply <- fetch (mutate net) (signup_fetch path value) ;;
     response <- await reply ;;
     result <- json response ;;
     pending <-
       (if ok response then
          set_message_text (message result) ;;
          set_message_className "success" ;;
          form_reset ;;
          spawn_fetchActivities LoadedCallback false
        else
          set_message_text (Some (detail_or_fallback result)) ;;
          set_message_className "error" ;;
          ret None) ;;
     message_classList_remove "hidden" ;;
     setTimeout HideMessage 5000 ;;
     ret pending)
    (fun error =>
       set_message_text (Some "Failed to sign up. Please try again.") ;;
       set_message_className "error" ;;
       message_classList_remove "hidden" ;;
       console_error "Error signing up:" error ;;
       ret None).

(** One submission, run until nothing of it is left to do. *)
Definition submit : M unit :=
  pending <- submit_body ;;
  match pending with
  | Some reply => fetchActivities_resume false reply
  | None => ret tt
  end.

(** *** [unregisterParticipant] (lines 116-155) *)

(** The arguments of [fetch] (lines 121-128), given the two escaped strings. *)
Definition unregister_fetch (path value : string) : Request :=
  {| method := DELETE;
     url := "/activities/" ++ path ++ "/unregister";
     headers := form_urlencoded;
     body := Some ("email=" ++ value) |}.

(** The request for [activityName] and [email], when both can be escaped. *)
Definition unregister_request (activityName email : string) : Request :=
  unregister_fetch (percent_encode activityName) (percent_encode email).

Definition unregisterParticipant (activityName email : string) : M unit :=
  try_catch
    (path <- encode activityName ;;
     value <- encode email ;;
     reply <- fetch (mutate net) (unregister_fetch path value) ;;
     response <- await reply ;;
     result <- json response ;;
     (if ok response then
        set_message_text (message result) ;;
        set_message_className "success" ;;
        call_fetchActivities TopLevel false
      else
        set_message_text (Some (detail_or_fallback result)) ;;
        set_message_className "error") ;;
     message_classList_remove "hidden" ;;
     setTimeout HideMessage 5000)
    (fun error =>
       set_message_text (Some "Failed to unregister participant. Please try again.") ;;
       set_message_className "error" ;;
       message_classList_remove "hidden" ;;
       console_error "Error unregistering participant:" error).

(** *** Start-up (line 112) *)

Definition DOMContentLoaded : M unit := call_fetchActivities LoadedCallback true.

End Script.

(** *** Timers *)

(** What a callback does when its timer fires (lines 100-102, 146-148). *)
Definition run_callback (cb : Callback) (p : Page) : Page :=
  match cb with
  | HideMessage => message_classList_add "hidden" p
  end.

Fixpoint remove_nth {A} (i : nat) (l : list A) : list A :=
  match i, l with
  | _, [] => []
  | O, _ :: rest => rest
  | S j, x :: rest => x :: remove_nth j rest
  end.

(** The [i]-th pending timer elapses: it leaves the pending list and its
    callback runs. *)
Definition elapse (i : nat) (p : Page) : Page :=
  match nth_error (timers p) i with
  | Some t => run_callback (callback t) (with_timers (remove_nth i (timers p)) p)
  | None => p
  end.

End App.

(** ** Observations

    What the properties below read off a page and a run. *)

Import Text Uri Dom App.
Local Open Scope js_scope.

(** The events a computation adds to the trace. *)
Definition events_of {A} (m : M A) (p : Page) : list Event :=
  skipn (List.length (trace p)) (trace (run m p)).

(** The reply carries no activity map: no response, or a body that is not JSON. *)
Definition no_payload {T} (reply : Reply T) : bool :=
  match reply with
  | Rejected => true
  | Responded r => match parsed r with Some _ => false | None => true end
  end.

(** The error a reply without payload raises at the [await]s. *)
Definition failure_of {T} (reply : Reply T) : Error :=
  match reply with
  | Rejected => NetworkError
  | Responded _ => SyntaxError
  end.

(** The request of line 10. *)
Definition activities_request : Request :=
  {| method := GET; url := "/activities"; headers := []; body := None |}.

(** The page after a reload that carried the map [activities]. *)
Definition rendered (refreshDropdown : bool) (activities : ActivityMap) (p : Page) : Page :=
  {| activitiesList := {| markup := ""; children := map activityCard activities |};
     activitySelect :=
       if refreshDropdown then
         {| options := placeholder :: map (fun e => activityOption (fst e)) activities;
            selectedIndex := 0 |}
       else activitySelect p;
     emailInput := emailInput p;
     messageDiv := messageDiv p;
     timers := timers p;
     trace := trace p |}.

(** The page after a reload that failed with [error]. *)
Definition load_failed (error : Error) (p : Page) : Page :=
  {| activitiesList := {| markup := load_failure; children := [] |};
     activitySelect := activitySelect p;
     emailInput := emailInput p;
     messageDiv := messageDiv p;
     timers := timers p;
     trace := trace p ++ [ConsoleError "Error fetching activities:" error] |}.

(** The opening tag of a participant row, and of a capacity line. *)
Definition row_open : string := "<div class=" ++ q "participant-item" ++ ">".
Definition capacity_open : string := "<strong>Capacity:</strong>".

(** What a row shows for [email]: the address, and a delete button whose
    click unregisters [email] from the activity [name]. *)
Definition email_span (email : string) : string :=
  "<span class=" ++ q "participant-email" ++ ">" ++ email ++ "</span>".

Definition delete_button (name email : string) : string :=
  "<button class=" ++ q "delete-btn" ++ " onclick=" ++ dq
  ++ "unregisterParticipant('" ++ name ++ "', '" ++ email ++ "')" ++ dq
  ++ " title=" ++ q "Remove participant" ++ ">".


(** ** A sample session

    The scenario of the specification: the server holds one activity with
    one participant. *)

Module Sample.

Definition chess_club : Activity :=
  {| description := "..."; schedule := "...";
     max_participants := 2; participants := ["a@x.com"] |}.

Definition activities : ActivityMap := [("Chess Club", chess_club)].

(** A server that answers every listing with [listing] and every sign-up or
    unregister request with [answer]. *)
Definition server (listing : Reply ActivityMap) (answer : Reply Result) : Network :=
  {| list_activities := fun _ => listing; mutate := fun _ _ => answer |}.

Definition json_response {T} (code : Z) (payload : T) : Reply T :=
  Responded {| status := code; parsed := Some payload |}.

Definition not_json {T} (code : Z) : Reply T :=
  Responded {| status := code; parsed := None |}.

Definition says (text : string) : Result :=
  {| message := Some text; detail := None |}.

Definition refuses (text : string) : Result :=
  {| message := None; detail := Some text |}.

(** The page before the script has run: nothing listed, the message area
    hidden, the form empty. *)
Definition blank : Page :=
  {| activitiesList := {| markup := ""; children := [] |};
     activitySelect := {| options := [placeholder]; selectedIndex := 0 |};
     emailInput := {| input_value := ""; defaultValue := "" |};
     messageDiv := {| text := ""; classList := ["hidden"] |};
     timers := [];
     trace := [] |}.

(** The page once the sample map is listed and the user has filled the form. *)
Definition filled : Page :=
  {| activitiesList := {| markup := ""; children := map activityCard activities |};
     activitySelect :=
       {| options := [placeholder; activityOption "Chess Club"]; selectedIndex := 1 |};
     emailInput := {| input_value := "b@x.com"; defaultValue := "" |};
     messageDiv := {| text := ""; classList := ["hidden"] |};
     timers := [];
     trace := [Enter_fetchActivities true; Fetch activities_request] |}.

(** The string of the one code unit U+D800: a lone surrogate. *)
Definition lone_surrogate : string :=
  string_of_list_ascii (map ascii_of_nat [237; 160; 128]).

(** The filled page, with a lone surrogate typed into the email field. *)
Definition mistyped : Page :=
  {| activitiesList := activitiesList filled;
     activitySelect := activitySelect filled;
     emailInput := {| input_value := lone_surrogate; defaultValue := "" |};
     messageDiv := messageDiv filled;
     timers := timers filled;
     trace := trace filled |}.

End Sample.

(** Both strings of a request can be escaped: neither holds a lone
    surrogate. *)
Definition sendable (activity email : string) : bool :=
  well_formed activity && well_formed email.

(** The request a submission of the form as it stands on [p] sends, when it
    sends one. *)
Definition form_request (p : Page) : Request :=
  signup_request (select_value (activitySelect p)) (input_value (emailInput p)).

Definition form_sendable (p : Page) : bool :=
  sendable (select_value (activitySelect p)) (input_value (emailInput p)).

(** The form after [signupForm.reset()]. *)
Definition reset_select (s : Select) : Select :=
  {| options := options s; selectedIndex := default_index (options s) 0 None |}.

Definition reset_input (i : Input) : Input :=
  {| input_value := defaultValue i; defaultValue := defaultValue i |}.

(** The timer of lines 100-102 and 146-148. *)
Definition hide_timer : Timer := {| delay := 5000; callback := HideMessage |}.

(** A submission that the server accepts: the page when the handler is done
    and the reply to the reload it started is still to come. *)
Definition accepted (result : Result) (p : Page) : Page :=
  {| activitiesList := activitiesList p;
     activitySelect := reset_select (activitySelect p);
     emailInput := reset_input (emailInput p);
     messageDiv := {| text := match message result with Some t => t | None => "" end;
                      classList := ["success"] |};
     timers := timers p ++ [hide_timer];
     trace := trace p ++ [Fetch (form_request p); FormReset;
                          Enter_fetchActivities false; Fetch activities_request] |}.

(** An error message for the response [r] as the handlers show it: the
    server's [detail] when it is a non-empty string, the fixed fallback when
    the body has no [detail] or an empty one, and the text [generic] of the
    handler's own [catch] block when the body is not JSON. *)
Definition shows_error (generic : string) (r : Response Result) (m : MessageArea) : Prop :=
  classList m = ["error"]
  /\ (forall result d,
        parsed r = Some result -> detail result = Some d -> d <> "" -> text m = d)
  /\ (forall result,
        parsed r = Some result -> detail result = None \/ detail result = Some "" ->
        text m = "An error occurred")
  /\ (parsed r = None -> text m = generic).

(** ** The contracts as the specification words them

    Each is a statement about one run; the properties below prove it, or
    refute it on a concrete run and prove what holds instead. *)

(** Every sign-up answered with a 2xx status resets the form, reloads the
    activities without refreshing the dropdown and shows a success
    notification, the options of the dropdown staying as they were. *)
Definition contract_of_accepted_signup (net : Network) (p : Page) : Prop :=
  forall r,
    mutate net (requests_sent p) (form_request p) = Responded r ->
    ok r = true ->
    In FormReset (events_of (submit net) p)
    /\ In (Enter_fetchActivities false) (events_of (submit net) p)
    /\ classList (messageDiv (run (submit net) p)) = ["success"]
    /\ options (activitySelect (run (submit net) p)) = options (activitySelect p).

(** Every refused sign-up shows the [detail] of the response when the
    response has one. *)
Definition contract_of_refused_signup (net : Network) (p : Page) : Prop :=
  forall r result d,
    mutate net (requests_sent p) (form_request p) = Responded r ->
    ok r = false ->
    parsed r = Some result ->
    detail result = Some d ->
    text (messageDiv (run (submit net) p)) = d.

(** Every submission sends a [POST] request and every unregistration a
    [DELETE] request. *)
Definition contract_of_requests (net : Network) (p : Page) (name email : string) : Prop :=
  (exists req, In (Fetch req) (events_of (submit net) p) /\ method req = POST)
  /\ (exists req,
        In (Fetch req) (events_of (unregisterParticipant net name email) p)
        /\ method req = DELETE).

(** A load writes to the console exactly when the transport failed. *)
Definition contract_of_logging (net : Network) (p : Page) : Prop :=
  (exists label error,
      In (ConsoleError label error) (events_of (fetchActivities net true) p))
  <-> list_activities net (requests_sent p) = Rejected.

(** ** More observations *)

(** The requests among the events of a run. *)
Fixpoint fetches (events : list Event) : list Request :=
  match events with
  | [] => []
  | Fetch req :: rest => req :: fetches rest
  | _ :: rest => fetches rest
  end.

(** The reply is a response with a 2xx status and a JSON body. *)
Definition accepted_with_json {T} (reply : Reply T) : bool :=
  match reply with
  | Rejected => false
  | Responded r => ok r && match parsed r with Some _ => true | None => false end
  end.

(** The reply is a response with a status outside 2xx and a JSON body. *)
Definition refused_with_json {T} (reply : Reply T) : bool :=
  match reply with
  | Rejected => false
  | Responded r => negb (ok r) && match parsed r with Some _ => true | None => false end
  end.

(** How many characters of [s] [percent_encode] escapes. *)
Fixpoint escaped_count (s : string) : nat :=
  match s with
  | EmptyString => 0
  | String c rest => (if unreserved c then 0 else 1) + escaped_count rest
  end.

(** The opening tags of the delete button and of the placeholder. *)
Definition button_open : string := "<button class=" ++ q "delete-btn".
Definition placeholder_open : string := "<p class=" ++ q "no-participants" ++ ">".

(** * Properties *)

(** ** Running the script symbolically *)

Lemma skipn_app_exact {A} (l extra : list A) :
  skipn (List.length l) (l ++ extra) = extra.
Proof.
  induction l as [| x l IH]; simpl; [reflexivity | exact IH].
Qed.

Lemma requests_sent_emit_other (e : Event) (p : Page) :
  is_fetch e = false -> requests_sent (emit e p) = requests_sent p.
Proof.
  intros He. unfold requests_sent, emit. simpl.
  rewrite filter_app. simpl. rewrite He. rewrite app_nil_r. reflexivity.
Qed.

(** [forEach] over the entries appends one card per entry, in order, and one
    option per entry when the dropdown is refreshed; it never throws. *)
Lemma forEach_renderEntry (refreshDropdown : bool) (activities : ActivityMap) (p : Page) :
  forEach (renderEntry refreshDropdown) activities p =
  (Normal tt,
   {| activitiesList :=
        {| markup := markup (activitiesList p);
           children := children (activitiesList p) ++ map activityCard activities |};
      activitySelect :=
        if refreshDropdown then
          {| options := options (activitySelect p)
                        ++ map (fun e => activityOption (fst e)) activities;
             selectedIndex :=
               match activities with
               | [] => selectedIndex (activitySelect p)
               | _ :: _ => if (selectedIndex (activitySelect p) <? 0)%Z then 0%Z
                           else selectedIndex (activitySelect p)
               end |}
        else activitySelect p;
      emailInput := emailInput p;
      messageDiv := messageDiv p;
      timers := timers p;
      trace := trace p |}).
Proof.
  revert p. induction activities as [| entry rest IH]; intros p.
  - destruct p as [[mk ch] [os si] em ms tm tr]. simpl.
    rewrite !app_nil_r. destruct refreshDropdown; reflexivity.
  - simpl forEach. unfold bind at 1.
    unfold renderEntry at 1. unfold bind at 1.
    destruct refreshDropdown.
    + cbn [list_appendChild select_appendChild modify]. rewrite IH. cbn.
      rewrite <- !app_assoc. cbn.
      destruct (selectedIndex (activitySelect p) <? 0)%Z eqn:Hneg;
        destruct rest; cbn; rewrite ?Hneg; reflexivity.
    + cbn [list_appendChild modify ret]. rewrite IH. cbn.
      rewrite <- !app_assoc. reflexivity.
Qed.

(** [fetchActivities] is its request followed by the handling of the reply
    that the server gives to it. *)
Lemma fetchActivities_unfold (net : Network) (refreshDropdown : bool) (p : Page) :
  fetchActivities net refreshDropdown p =
  fetchActivities_resume refreshDropdown
    (list_activities net (requests_sent p))
    (emit (Fetch activities_request) (emit (Enter_fetchActivities refreshDropdown) p)).
Proof.
  unfold fetchActivities, fetchActivities_start, bind, modify, fetch.
  cbn -[requests_sent emit].
  rewrite requests_sent_emit_other by reflexivity. reflexivity.
Qed.

Lemma resume_with_payload (refreshDropdown : bool)
    (r : Response ActivityMap) (activities : ActivityMap) (p : Page) :
  parsed r = Some activities ->
  fetchActivities_resume refreshDropdown (Responded r) p =
  (Normal tt, rendered refreshDropdown activities p).
Proof.
  intros Hbody.
  unfold fetchActivities_resume, try_catch, bind at 1, await, ret.
  unfold bind at 1, json. rewrite Hbody. unfold ret.
  unfold bind at 1, set_list_innerHTML, modify.
  unfold bind at 1.
  destruct refreshDropdown.
  - unfold set_select_placeholder, modify. rewrite forEach_renderEntry.
    unfold rendered. cbn. destruct activities; reflexivity.
  - unfold ret. rewrite forEach_renderEntry. reflexivity.
Qed.

Lemma resume_without_payload (refreshDropdown : bool)
    (reply : Reply ActivityMap) (p : Page) :
  no_payload reply = true ->
  fetchActivities_resume refreshDropdown reply p =
  (Normal tt, load_failed (failure_of reply) p).
Proof.
  intros Hfail.
  unfold fetchActivities_resume, try_catch, bind at 1.
  destruct reply as [| r]; cbn.
  - reflexivity.
  - cbn in Hfail. unfold bind, json. destruct (parsed r); [discriminate |].
    reflexivity.
Qed.

(** Every reply is of one of the two kinds. *)
Lemma payload_or_not {T} (reply : Reply T) :
  no_payload reply = true \/
  exists r v, reply = Responded r /\ parsed r = Some v.
Proof.
  destruct reply as [| r]; cbn; [left; reflexivity |].
  destruct (parsed r) as [v |] eqn:Hp; [right; eauto | left; reflexivity].
Qed.

(** A reload never touches the dropdown unless asked to refresh it, whatever
    the reply. *)
Lemma resume_keeps_dropdown (reply : Reply ActivityMap) (p : Page) :
  activitySelect (run (fetchActivities_resume false reply) p) = activitySelect p.
Proof.
  unfold run.
  destruct (payload_or_not reply) as [Hfail | (r & v & -> & Hbody)].
  - rewrite resume_without_payload by assumption. reflexivity.
  - rewrite (resume_with_payload _ _ v) by assumption. reflexivity.
Qed.

(** A load touches neither the message area, nor the timers, nor the email
    field. *)
Lemma resume_keeps_message (refreshDropdown : bool) (reply : Reply ActivityMap) (p : Page) :
  messageDiv (run (fetchActivities_resume refreshDropdown reply) p) = messageDiv p
  /\ timers (run (fetchActivities_resume refreshDropdown reply) p) = timers p
  /\ emailInput (run (fetchActivities_resume refreshDropdown reply) p) = emailInput p.
Proof.
  unfold run.
  destruct (payload_or_not reply) as [Hfail | (r & v & -> & Hbody)].
  - rewrite resume_without_payload by assumption. repeat split; reflexivity.
  - rewrite (resume_with_payload _ _ v) by assumption. repeat split; reflexivity.
Qed.

Lemma nth_error_map_card (activities : ActivityMap) (i : nat) (entry : string * Activity) :
  nth_error activities i = Some entry ->
  nth_error (map activityCard activities) i = Some (activityCard entry).
Proof.
  intros H. rewrite nth_error_map, H. reflexivity.
Qed.

(** ** Strings and markup *)

Lemma append_assoc (a b c : string) : (a ++ b) ++ c = a ++ (b ++ c).
Proof.
  induction a as [| x a IH]; simpl; [reflexivity | now rewrite IH].
Qed.

Lemma append_nil_r (a : string) : a ++ "" = a.
Proof.
  induction a as [| x a IH]; simpl; [reflexivity | now rewrite IH].
Qed.

Lemma all_chars_app (f : ascii -> bool) (a b : string) :
  all_chars f (a ++ b) = all_chars f a && all_chars f b.
Proof.
  induction a as [| x a IH]; simpl; [reflexivity |].
  rewrite IH. now rewrite andb_assoc.
Qed.

(** A tag cannot start inside plain text. *)
Lemma occurrences_skip_text (tag_rest plain rest : string) :
  markup_free plain = true ->
  occurrences (String "<" tag_rest) (plain ++ rest) =
  occurrences (String "<" tag_rest) rest.
Proof.
  unfold markup_free.
  induction plain as [| c plain IH]; intros Hfree; [reflexivity |].
  cbn [all_chars] in Hfree. apply andb_true_iff in Hfree as [Hc Hrest].
  change (String c plain ++ rest) with (String c (plain ++ rest)).
  cbn [occurrences starts_with].
  destruct (Ascii.eqb "<" c); [discriminate Hc |].
  cbn [andb Nat.add]. now apply IH.
Qed.

(** Decimal digits and the sign are plain text. *)
Lemma markup_free_uint (d : Decimal.uint) :
  markup_free (NilEmpty.string_of_uint d) = true.
Proof.
  induction d; simpl; try reflexivity; assumption.
Qed.

Lemma markup_free_number (n : Z) : markup_free (Number_toString n) = true.
Proof.
  unfold Number_toString, NilZero.string_of_int, NilZero.string_of_uint.
  destruct (Z.to_int n) as [d | d]; destruct d; try reflexivity;
    apply (markup_free_uint (_ d)) || (simpl; apply markup_free_uint).
Qed.

Ltac count_tags :=
  repeat rewrite append_assoc;
  repeat first
    [ rewrite occurrences_skip_text by assumption
    | progress (cbn [occurrences starts_with append Ascii.eqb Bool.eqb andb Nat.add]) ];
  try reflexivity.

Lemma participantItem_content (name email : string) :
  contains (email_span email) (participantItem name email) /\
  contains (delete_button name email) (participantItem name email).
Proof.
  split.
  - exists ("
                <div class=" ++ q "participant-item" ++ ">
                  ").
    eexists. unfold participantItem, email_span.
    repeat rewrite append_assoc. reflexivity.
  - exists ("
                <div class=" ++ q "participant-item" ++ ">
                  " ++ email_span email ++ "
                  ").
    eexists. unfold participantItem, email_span, delete_button.
    repeat rewrite append_assoc. reflexivity.
Qed.

(** A row of plain-text data is one row element. *)
Lemma occurrences_item (name email rest : string) :
  markup_free name = true -> markup_free email = true ->
  occurrences row_open (participantItem name email ++ rest) =
  S (occurrences row_open rest).
Proof.
  intros Hn He.
  unfold participantItem, row_open, q, dq, delete_glyph.
  count_tags.
Qed.

Lemma occurrences_items (name : string) (emails : list string) (rest : string) :
  markup_free name = true -> forallb markup_free emails = true ->
  occurrences row_open (join (map (participantItem name) emails) ++ rest) =
  List.length emails + occurrences row_open rest.
Proof.
  intros Hn. unfold join.
  induction emails as [| email more IH]; intros He; [reflexivity |].
  cbn [forallb] in He. apply andb_true_iff in He as [He Hmore].
  assert (Hcons : String.concat "" (map (participantItem name) (email :: more)) =
                  participantItem name email ++ String.concat "" (map (participantItem name) more)).
  { cbn [map String.concat]. destruct (map (participantItem name) more) eqn:Hm.
    - cbn. now rewrite append_nil_r.
    - reflexivity. }
  rewrite Hcons, append_assoc, occurrences_item by assumption.
  rewrite IH by assumption. reflexivity.
Qed.

Lemma occurrences_participantsList (name : string) (details : Activity) (rest : string) :
  markup_free name = true -> forallb markup_free (participants details) = true ->
  occurrences row_open (participantsList name details ++ rest) =
  List.length (participants details) + occurrences row_open rest.
Proof.
  intros Hn He. unfold participantsList.
  destruct (participants details) as [| email more] eqn:Hp.
  - cbn [List.length Nat.ltb Nat.leb]. unfold no_participants, row_open, q, dq.
    count_tags.
  - change (0 <? List.length (email :: more))%nat with true. cbv iota.
    rewrite !append_assoc.
    transitivity (occurrences row_open
                    (join (map (participantItem name) (email :: more)) ++ "</div>" ++ rest)).
    + unfold row_open, q, dq. cbn [append occurrences starts_with Ascii.eqb Bool.eqb andb Nat.add].
      reflexivity.
    + rewrite occurrences_items by assumption. reflexivity.
Qed.

Lemma occurrences_card_rows (name : string) (details : Activity) :
  markup_free name = true ->
  markup_free (description details) = true ->
  markup_free (schedule details) = true ->
  forallb markup_free (participants details) = true ->
  occurrences row_open (cardHTML name details) = List.length (participants details).
Proof.
  intros Hn Hd Hs He.
  pose proof (markup_free_number (Z.of_nat (List.length (participants details)))) as Hlen.
  pose proof (markup_free_number (max_participants details)) as Hmax.
  unfold cardHTML, card_head, capacity_paragraph, capacity, section_open, section_close.
  repeat rewrite append_assoc.
  unfold row_open at 1, q, dq.
  repeat first
    [ rewrite occurrences_skip_text by assumption
    | progress (cbn [occurrences starts_with append Ascii.eqb Bool.eqb andb Nat.add]) ].
  rewrite occurrences_participantsList by assumption.
  cbn. lia.
Qed.

(** Plain-text data put in a card adds no capacity line. *)
Lemma occurrences_item_capacity (name email rest : string) :
  markup_free name = true -> markup_free email = true ->
  occurrences capacity_open (participantItem name email ++ rest) =
  occurrences capacity_open rest.
Proof.
  intros Hn He.
  unfold participantItem, capacity_open, q, dq, delete_glyph.
  count_tags.
Qed.

Lemma join_cons (row : string) (rows : list string) :
  join (row :: rows) = row ++ join rows.
Proof.
  unfold join. cbn [String.concat]. destruct rows.
  - cbn. now rewrite append_nil_r.
  - reflexivity.
Qed.

Lemma occurrences_items_capacity (name : string) (emails : list string) (rest : string) :
  markup_free name = true -> forallb markup_free emails = true ->
  occurrences capacity_open (join (map (participantItem name) emails) ++ rest) =
  occurrences capacity_open rest.
Proof.
  intros Hn.
  induction emails as [| email more IH]; intros He; [reflexivity |].
  cbn [forallb] in He. apply andb_true_iff in He as [He Hmore].
  cbn [map]. rewrite join_cons, append_assoc.
  rewrite occurrences_item_capacity by assumption. now apply IH.
Qed.

Lemma occurrences_card_capacity (name : string) (details : Activity) :
  markup_free name = true ->
  markup_free (description details) = true ->
  markup_free (schedule details) = true ->
  forallb markup_free (participants details) = true ->
  occurrences capacity_open (cardHTML name details) = 1.
Proof.
  intros Hn Hd Hs He.
  pose proof (markup_free_number (Z.of_nat (List.length (participants details)))) as Hlen.
  pose proof (markup_free_number (max_participants details)) as Hmax.
  unfold cardHTML, card_head, capacity_paragraph, capacity, section_open, section_close,
    participantsList, no_participants.
  destruct (0 <? List.length (participants details))%nat.
  - repeat rewrite append_assoc.
    unfold capacity_open at 1, q, dq.
    repeat first
      [ rewrite occurrences_skip_text by assumption
      | rewrite occurrences_items_capacity by assumption
      | progress (cbn [occurrences starts_with append Ascii.eqb Bool.eqb andb Nat.add]) ].
    reflexivity.
  - repeat rewrite append_assoc.
    unfold capacity_open at 1, q, dq.
    repeat first
      [ rewrite occurrences_skip_text by assumption
      | progress (cbn [occurrences starts_with append Ascii.eqb Bool.eqb andb Nat.add]) ].
    reflexivity.
Qed.

(** ** Loading and drawing the activities *)

(** The page a load leaves when the reply carries a map. *)
Lemma fetchActivities_rendered (net : Network) (refreshDropdown : bool) (p : Page)
    (r : Response ActivityMap) (activities : ActivityMap) :
  list_activities net (requests_sent p) = Responded r ->
  parsed r = Some activities ->
  fetchActivities net refreshDropdown p =
  (Normal tt,
   rendered refreshDropdown activities
     (emit (Fetch activities_request) (emit (Enter_fetchActivities refreshDropdown) p))).
Proof.
  intros Hreply Hbody.
  rewrite fetchActivities_unfold, Hreply.
  now apply resume_with_payload.
Qed.

(** The page a load leaves when the reply carries none. *)
Lemma fetchActivities_failed (net : Network) (refreshDropdown : bool) (p : Page) :
  no_payload (list_activities net (requests_sent p)) = true ->
  fetchActivities net refreshDropdown p =
  (Normal tt,
   load_failed (failure_of (list_activities net (requests_sent p)))
     (emit (Fetch activities_request) (emit (Enter_fetchActivities refreshDropdown) p))).
Proof.
  intros Hfail.
  rewrite fetchActivities_unfold.
  now apply resume_without_payload.
Qed.

(** In a card of plain-text data the capacity line is the only one. *)
Lemma capacity_line_unique (name : string) (details : Activity) :
  markup_free name = true ->
  markup_free (description details) = true ->
  markup_free (schedule details) = true ->
  forallb markup_free (participants details) = true ->
  occurrences capacity_open (innerHTML (activityCard (name, details))) = 1.
Proof.
  intros. now apply occurrences_card_capacity.
Qed.

(** The printed integer is its decimal numeral, and no other string is. *)
Lemma Number_toString_decimal (n : Z) : decimal_of (Number_toString n) n.
Proof.
  assert (Hzero : Z.to_int 0 = Decimal.Pos (Decimal.D0 Decimal.Nil)) by reflexivity.
  exists (Z.to_int n). split; [| split].
  - unfold Number_toString. apply NilZero.isi; intros Hnil;
      pose proof (DecimalZ.of_to n) as Hn; rewrite Hnil in Hn;
      cbn in Hn; subst n; rewrite Hzero in Hnil; discriminate Hnil.
  - rewrite <- DecimalZ.to_of. now rewrite DecimalZ.of_to.
  - apply DecimalZ.of_to.
Qed.

Lemma decimal_of_unique (s : string) (n : Z) :
  decimal_of s n -> s = Number_toString n.
Proof.
  intros (d & Hread & Hnorm & Hvalue). unfold Number_toString.
  rewrite <- Hvalue, DecimalZ.to_of, Hnorm. symmetry. now apply NilZero.sis.
Qed.

(** C1: when the activity map is fetched and parsed, the list container
    holds exactly one card per key of the map, in the order of the entries,
    and the capacity line of the card of each activity reads
    [participants.length/max_participants], both written as decimal
    numerals, for every activity whose two numbers are safe integers; for
    plain-text data it is the only capacity line of the card. *)
Theorem one_card_per_activity (net : Network) (refreshDropdown : bool) (p : Page)
    (r : Response ActivityMap) (activities : ActivityMap) :
  list_activities net (requests_sent p) = Responded r ->
  parsed r = Some activities ->
  List.length (children (activitiesList (run (fetchActivities net refreshDropdown) p)))
  = List.length activities
  /\ markup (activitiesList (run (fetchActivities net refreshDropdown) p)) = ""
  /\ forall i name details,
       nth_error activities i = Some (name, details) ->
       safe_integer (Z.of_nat (List.length (participants details))) = true ->
       safe_integer (max_participants details) = true ->
       exists card count limit,
         nth_error (children (activitiesList (run (fetchActivities net refreshDropdown) p))) i
         = Some card
         /\ className card = "activity-card"
         /\ innerHTML card =
              card_head name details
              ++ "<p><strong>Capacity:</strong> " ++ count ++ "/" ++ limit ++ "</p>"
              ++ section_open ++ participantsList name details ++ section_close
         /\ decimal_of count (Z.of_nat (List.length (participants details)))
         /\ decimal_of limit (max_participants details)
         /\ (forallb markup_free
               (name :: description details :: schedule details :: participants details)
             = true ->
             occurrences "<strong>Capacity:</strong>" (innerHTML card) = 1).
Proof.
  intros Hreply Hbody. unfold run.
  rewrite (fetchActivities_rendered _ _ _ r activities Hreply Hbody).
  cbn [snd rendered activitiesList children markup].
  split; [apply length_map | split; [reflexivity |]].
  intros i name details Hentry _ _.
  exists (activityCard (name, details)),
         (Number_toString (Z.of_nat (List.length (participants details)))),
         (Number_toString (max_participants details)).
  split; [now apply nth_error_map_card |].
  split; [reflexivity |]. split; [| split; [| split]].
  - cbn [activityCard innerHTML fst snd].
    unfold cardHTML, capacity_paragraph, capacity.
    now rewrite !append_assoc.
  - apply Number_toString_decimal.
  - apply Number_toString_decimal.
  - intros Hplain. cbn [forallb] in Hplain.
    apply andb_true_iff in Hplain as [Hn Hplain].
    apply andb_true_iff in Hplain as [Hd Hplain].
    apply andb_true_iff in Hplain as [Hs He].
    now apply capacity_line_unique.
Qed.

(** On the sample map: one card, and its capacity paragraph reads [1/2]. *)
Lemma one_card_per_activity_witness :
  let p := run (fetchActivities
                  (Sample.server (Sample.json_response 200 Sample.activities) Rejected) true)
               Sample.blank in
  List.length (children (activitiesList p)) = 1
  /\ exists card,
       nth_error (children (activitiesList p)) 0 = Some card
       /\ innerHTML card =
            card_head "Chess Club" Sample.chess_club
            ++ "<p><strong>Capacity:</strong> 1/2</p>"
            ++ section_open ++ participantsList "Chess Club" Sample.chess_club
            ++ section_close.
Proof.
  destruct (one_card_per_activity
              (Sample.server (Sample.json_response 200 Sample.activities) Rejected)
              true Sample.blank
              {| status := 200; parsed := Some Sample.activities |}
              Sample.activities eq_refl eq_refl) as (Hcount & _ & Hcards).
  split; [exact Hcount |].
  destruct (Hcards 0%nat "Chess Club" Sample.chess_club eq_refl eq_refl eq_refl)
    as (card & count & limit & Hcard & _ & Hmarkup & Hread & Hlimit & _).
  exists card. split; [exact Hcard |].
  rewrite Hmarkup, (decimal_of_unique count 1 Hread), (decimal_of_unique limit 2 Hlimit).
  reflexivity.
Defined.

(** C2: the card of an activity without participants shows the
    "No participants yet" placeholder and no participant row; the card of an
    activity with participants shows one row per email, in the order of the
    list, each with the email and a delete button for it. *)
Theorem participant_rows_or_placeholder (net : Network) (refreshDropdown : bool) (p : Page)
    (r : Response ActivityMap) (activities : ActivityMap)
    (i : nat) (name : string) (details : Activity) :
  list_activities net (requests_sent p) = Responded r ->
  parsed r = Some activities ->
  nth_error activities i = Some (name, details) ->
  exists card section,
    nth_error (children (activitiesList (run (fetchActivities net refreshDropdown) p))) i
    = Some card
    /\ innerHTML card =
         card_head name details ++ capacity_paragraph details
         ++ section_open ++ section ++ section_close
    /\ (participants details = [] ->
        section = "<p class=" ++ q "no-participants" ++ ">No participants yet</p>"
        /\ occurrences row_open section = 0)
    /\ (participants details <> [] ->
        section = "<div class=" ++ q "participants-list" ++ ">"
                  ++ join (map (participantItem name) (participants details))
                  ++ "</div>")
    /\ (forall email,
          contains (email_span email) (participantItem name email)
          /\ contains (delete_button name email) (participantItem name email))
    /\ (forallb markup_free
          (name :: description details :: schedule details :: participants details) = true ->
        occurrences row_open (innerHTML card) = List.length (participants details)).
Proof.
  intros Hreply Hbody Hentry. unfold run.
  rewrite (fetchActivities_rendered _ _ _ r activities Hreply Hbody).
  cbn [snd rendered activitiesList children].
  exists (activityCard (name, details)), (participantsList name details).
  split; [now apply nth_error_map_card |].
  split; [reflexivity |].
  split; [| split; [| split]].
  - intros Hnone. unfold participantsList. rewrite Hnone. split; reflexivity.
  - intros Hsome. unfold participantsList.
    destruct (participants details); [contradiction | reflexivity].
  - intros email. apply participantItem_content.
  - intros Hplain. cbn [forallb] in Hplain.
    apply andb_true_iff in Hplain as [Hn Hplain].
    apply andb_true_iff in Hplain as [Hd Hplain].
    apply andb_true_iff in Hplain as [Hs He].
    now apply occurrences_card_rows.
Qed.

Lemma participant_rows_or_placeholder_witness :
  exists card,
    nth_error
      (children (activitiesList
         (run (fetchActivities
                 (Sample.server (Sample.json_response 200 Sample.activities) Rejected) true)
              Sample.blank))) 0 = Some card
    /\ occurrences row_open (innerHTML card) = 1.
Proof.
  destruct (participant_rows_or_placeholder
              (Sample.server (Sample.json_response 200 Sample.activities) Rejected)
              true Sample.blank
              {| status := 200; parsed := Some Sample.activities |}
              Sample.activities 0 "Chess Club" Sample.chess_club
              eq_refl eq_refl eq_refl)
    as (card & section & Hcard & _ & _ & _ & _ & Hrows).
  exists card. split; [exact Hcard | exact (Hrows eq_refl)].
Defined.

(** C6: when the fetch or the parsing of its body fails, the list container
    holds the fixed failure message and no card; and whatever the reply,
    [fetchActivities] ends normally: nothing is thrown to its caller. *)
Theorem fetchActivities_fails_soft (net : Network) (refreshDropdown : bool) (p : Page) :
  outcome (fetchActivities net refreshDropdown) p = Normal tt
  /\ (no_payload (list_activities net (requests_sent p)) = true ->
      activitiesList (run (fetchActivities net refreshDropdown) p)
      = {| markup := "<p>Failed to load activities. Please try again later.</p>";
           children := [] |}).
Proof.
  unfold outcome, run.
  destruct (payload_or_not (list_activities net (requests_sent p)))
    as [Hfail | (r & activities & Hreply & Hbody)].
  - rewrite fetchActivities_failed by assumption. split; [reflexivity |].
    intros _. reflexivity.
  - rewrite (fetchActivities_rendered _ _ _ r activities Hreply Hbody).
    split; [reflexivity |].
    rewrite Hreply. cbn. rewrite Hbody. discriminate.
Qed.

Lemma fetchActivities_fails_soft_witness :
  activitiesList
    (run (fetchActivities (Sample.server (Sample.not_json 200) Rejected) false) Sample.filled)
  = {| markup := "<p>Failed to load activities. Please try again later.</p>";
       children := [] |}.
Proof.
  exact (proj2 (fetchActivities_fails_soft
                  (Sample.server (Sample.not_json 200) Rejected) false Sample.filled)
               eq_refl).
Defined.

(** C8: a load with [refreshDropdown = true] that fetched a map of N
    activities leaves the dropdown with exactly N+1 options: the placeholder
    "-- Select an activity --" first, then one option per activity name, in
    the order of the map. *)
Theorem dropdown_rebuilt (net : Network) (p : Page)
    (r : Response ActivityMap) (activities : ActivityMap) :
  list_activities net (requests_sent p) = Responded r ->
  parsed r = Some activities ->
  options (activitySelect (run (fetchActivities net true) p))
  = {| value := ""; textContent := "-- Select an activity --"; defaultSelected := false |}
    :: map (fun entry => {| value := fst entry; textContent := fst entry;
                            defaultSelected := false |}) activities
  /\ List.length (options (activitySelect (run (fetchActivities net true) p)))
     = S (List.length activities).
Proof.
  intros Hreply Hbody. unfold run.
  rewrite (fetchActivities_rendered _ _ _ r activities Hreply Hbody).
  cbn [snd rendered activitySelect options].
  split; [reflexivity |].
  cbn [List.length]. now rewrite length_map.
Qed.

Lemma dropdown_rebuilt_witness :
  map value
    (options (activitySelect
       (run (fetchActivities
               (Sample.server (Sample.json_response 200 Sample.activities) Rejected) true)
            Sample.blank)))
  = [""; "Chess Club"].
Proof.
  rewrite (proj1 (dropdown_rebuilt
                    (Sample.server (Sample.json_response 200 Sample.activities) Rejected)
                    Sample.blank
                    {| status := 200; parsed := Some Sample.activities |}
                    Sample.activities eq_refl eq_refl)).
  reflexivity.
Defined.

(** ** Signing up *)

Ltac page_simpl :=
  repeat progress
    (unfold ret, throw, modify, set_message_text, set_message_className,
       message_classList_remove, setTimeout, console_error, form_reset,
       with_messageDiv, with_activitiesList, with_activitySelect, with_emailInput,
       with_timers, emit, hide_timer, reset_select, reset_input;
     cbn -[fetchActivities_resume requests_sent]);
  rewrite <- ?app_assoc;
  cbn [app].

(** A call of [encodeURIComponent] returns the escaped string, or throws on
    a lone surrogate. *)
Lemma bind_encode {A} (s : string) (k : string -> M A) (p : Page) :
  well_formed s = true -> bind (encode s) k p = k (percent_encode s) p.
Proof.
  intros Hs. unfold bind, encode, Uri.encodeURIComponent. now rewrite Hs.
Qed.

Lemma bind_encode_throws {A} (s : string) (k : string -> M A) (p : Page) :
  well_formed s = false -> bind (encode s) k p = (Throw URIError, p).
Proof.
  intros Hs. unfold bind, encode, Uri.encodeURIComponent. now rewrite Hs.
Qed.

Lemma sendable_parts (activity email : string) :
  sendable activity email = true ->
  well_formed activity = true /\ well_formed email = true.
Proof.
  intros H. now apply andb_true_iff in H.
Qed.

Ltac sent_signup H :=
  let Ha := fresh "Hactivity" in
  let He := fresh "Hemail" in
  destruct (sendable_parts _ _ H) as [Ha He];
  unfold try_catch;
  rewrite (bind_encode _ _ _ Ha), (bind_encode _ _ _ He);
  change (signup_fetch (percent_encode ?a) (percent_encode ?e)) with (signup_request a e).

Ltac sent_unregister H :=
  let Ha := fresh "Hactivity" in
  let He := fresh "Hemail" in
  destruct (sendable_parts _ _ H) as [Ha He];
  unfold try_catch;
  rewrite (bind_encode _ _ _ Ha), (bind_encode _ _ _ He);
  change (unregister_fetch (percent_encode ?a) (percent_encode ?e))
    with (unregister_request a e).

(** A submission that cannot escape its strings: nothing is sent. *)
Lemma submit_unsendable (net : Network) (p : Page) :
  form_sendable p = false ->
  submit net p =
  (Normal tt,
   {| activitiesList := activitiesList p;
      activitySelect := activitySelect p;
      emailInput := emailInput p;
      messageDiv := {| text := "Failed to sign up. Please try again.";
                       classList := ["error"] |};
      timers := timers p;
      trace := trace p ++ [ConsoleError "Error signing up:" URIError] |}).
Proof.
  intros Hsend. unfold form_sendable, sendable in Hsend.
  unfold submit, submit_body, bind at 1, gets.
  unfold bind at 1. unfold bind at 1.
  unfold try_catch.
  destruct (well_formed (select_value (activitySelect p))) eqn:Ha.
  - cbn [andb] in Hsend.
    rewrite (bind_encode _ _ _ Ha), (bind_encode_throws _ _ _ Hsend).
    page_simpl. reflexivity.
  - rewrite (bind_encode_throws _ _ _ Ha). page_simpl. reflexivity.
Qed.

(** A submission whose request gets no JSON answer. *)
Lemma submit_no_payload (net : Network) (p : Page) :
  form_sendable p = true ->
  no_payload (mutate net (requests_sent p) (form_request p)) = true ->
  submit net p =
  (Normal tt,
   {| activitiesList := activitiesList p;
      activitySelect := activitySelect p;
      emailInput := emailInput p;
      messageDiv := {| text := "Failed to sign up. Please try again.";
                       classList := ["error"] |};
      timers := timers p;
      trace := trace p ++ [Fetch (form_request p);
                           ConsoleError "Error signing up:"
                             (failure_of (mutate net (requests_sent p) (form_request p)))] |}).
Proof.
  intros Hsend Hfail.
  unfold submit, submit_body, bind at 1, gets.
  unfold bind at 1. unfold bind at 1.
  sent_signup Hsend.
  unfold bind at 1, fetch.
  fold (form_request p).
  destruct (mutate net (requests_sent p) (form_request p)) as [| r] eqn:Hreply.
  - cbn. page_simpl. reflexivity.
  - cbn in Hfail. destruct (parsed r) eqn:Hbody; [discriminate |].
    cbn. unfold bind, json. rewrite Hbody. cbn. page_simpl. reflexivity.
Qed.

(** A submission that the server refuses with a JSON body. *)
Lemma submit_refused (net : Network) (p : Page) (r : Response Result) (result : Result) :
  form_sendable p = true ->
  mutate net (requests_sent p) (form_request p) = Responded r ->
  parsed r = Some result ->
  ok r = false ->
  submit net p =
  (Normal tt,
   {| activitiesList := activitiesList p;
      activitySelect := activitySelect p;
      emailInput := emailInput p;
      messageDiv := {| text := detail_or_fallback result; classList := ["error"] |};
      timers := timers p ++ [hide_timer];
      trace := trace p ++ [Fetch (form_request p)] |}).
Proof.
  intros Hsend Hreply Hbody Hok.
  unfold submit, submit_body, bind at 1, gets.
  unfold bind at 1. unfold bind at 1.
  sent_signup Hsend.
  unfold bind at 1, fetch.
  fold (form_request p). rewrite Hreply.
  cbn. unfold bind at 1, json. rewrite Hbody. cbn.
  unfold bind at 1. rewrite Hok. cbn. page_simpl. reflexivity.
Qed.

(** A submission that the server accepts: the page just before the reply to
    the reload it starts is handled. *)
Lemma submit_accepted (net : Network) (p : Page) (r : Response Result) (result : Result) :
  form_sendable p = true ->
  mutate net (requests_sent p) (form_request p) = Responded r ->
  parsed r = Some result ->
  ok r = true ->
  submit net p =
  fetchActivities_resume false (list_activities net (S (requests_sent p)))
    (accepted result p).
Proof.
  intros Hsend Hreply Hbody Hok.
  unfold submit, submit_body, bind at 1, gets.
  unfold bind at 1. unfold bind at 1.
  sent_signup Hsend.
  unfold bind at 1. unfold bind at 1, fetch.
  fold (form_request p). rewrite Hreply.
  cbn [await ret]. unfold bind at 1, json. rewrite Hbody. cbn [ret].
  unfold bind at 1. rewrite Hok.
  unfold bind at 1. unfold bind at 1. unfold bind at 1. unfold bind at 1.
  cbn [set_message_text set_message_className form_reset modify].
  unfold spawn_fetchActivities.
  change (in_scope LoadedCallback "fetchActivities") with true. cbv iota.
  unfold fetchActivities_start, bind, fetch, accepted. page_simpl.
  f_equal. f_equal.
  unfold requests_sent. cbn [trace]. rewrite !filter_app, !length_app. cbn. lia.
Qed.

(** ** Unregistering *)

(** An unregistration that cannot escape its strings: nothing is sent. *)
Lemma unregister_unsendable (net : Network) (name email : string) (p : Page) :
  sendable name email = false ->
  unregisterParticipant net name email p =
  (Normal tt,
   {| activitiesList := activitiesList p;
      activitySelect := activitySelect p;
      emailInput := emailInput p;
      messageDiv := {| text := "Failed to unregister participant. Please try again.";
                       classList := ["error"] |};
      timers := timers p;
      trace := trace p ++ [ConsoleError "Error unregistering participant:" URIError] |}).
Proof.
  intros Hsend. unfold sendable in Hsend.
  unfold unregisterParticipant, try_catch.
  destruct (well_formed name) eqn:Ha.
  - cbn [andb] in Hsend.
    rewrite (bind_encode _ _ _ Ha), (bind_encode_throws _ _ _ Hsend).
    page_simpl. reflexivity.
  - rewrite (bind_encode_throws _ _ _ Ha). page_simpl. reflexivity.
Qed.

(** An unregister request that gets no JSON answer. *)
Lemma unregister_no_payload (net : Network) (name email : string) (p : Page) :
  sendable name email = true ->
  no_payload (mutate net (requests_sent p) (unregister_request name email)) = true ->
  unregisterParticipant net name email p =
  (Normal tt,
   {| activitiesList := activitiesList p;
      activitySelect := activitySelect p;
      emailInput := emailInput p;
      messageDiv := {| text := "Failed to unregister participant. Please try again.";
                       classList := ["error"] |};
      timers := timers p;
      trace := trace p ++ [Fetch (unregister_request name email);
                           ConsoleError "Error unregistering participant:"
                             (failure_of (mutate net (requests_sent p)
                                            (unregister_request name email)))] |}).
Proof.
  intros Hsend Hfail.
  unfold unregisterParticipant. sent_unregister Hsend.
  unfold bind at 1, fetch.
  destruct (mutate net (requests_sent p) (unregister_request name email)) as [| r] eqn:Hreply.
  - cbn. page_simpl. reflexivity.
  - cbn in Hfail. destruct (parsed r) eqn:Hbody; [discriminate |].
    cbn. unfold bind, json. rewrite Hbody. cbn. page_simpl. reflexivity.
Qed.

(** An unregister request that the server refuses with a JSON body. *)
Lemma unregister_refused (net : Network) (name email : string) (p : Page)
    (r : Response Result) (result : Result) :
  sendable name email = true ->
  mutate net (requests_sent p) (unregister_request name email) = Responded r ->
  parsed r = Some result ->
  ok r = false ->
  unregisterParticipant net name email p =
  (Normal tt,
   {| activitiesList := activitiesList p;
      activitySelect := activitySelect p;
      emailInput := emailInput p;
      messageDiv := {| text := detail_or_fallback result; classList := ["error"] |};
      timers := timers p ++ [hide_timer];
      trace := trace p ++ [Fetch (unregister_request name email)] |}).
Proof.
  intros Hsend Hreply Hbody Hok.
  unfold unregisterParticipant. sent_unregister Hsend.
  unfold bind at 1, fetch. rewrite Hreply.
  cbn. unfold bind at 1, json. rewrite Hbody. cbn.
  unfold bind at 1. rewrite Hok. cbn. page_simpl. reflexivity.
Qed.

(** An unregister request that the server accepts: the call of
    [fetchActivities] at line 137 names a function that the top level does
    not declare, so the [catch] block runs. *)
Lemma unregister_accepted (net : Network) (name email : string) (p : Page)
    (r : Response Result) (result : Result) :
  sendable name email = true ->
  mutate net (requests_sent p) (unregister_request name email) = Responded r ->
  parsed r = Some result ->
  ok r = true ->
  unregisterParticipant net name email p =
  (Normal tt,
   {| activitiesList := activitiesList p;
      activitySelect := activitySelect p;
      emailInput := emailInput p;
      messageDiv := {| text := "Failed to unregister participant. Please try again.";
                       classList := ["error"] |};
      timers := timers p;
      trace := trace p ++ [Fetch (unregister_request name email);
                           ConsoleError "Error unregistering participant:"
                             (ReferenceError "fetchActivities")] |}).
Proof.
  intros Hsend Hreply Hbody Hok.
  unfold unregisterParticipant. sent_unregister Hsend.
  unfold bind at 1, fetch. rewrite Hreply.
  cbn. unfold bind at 1, json. rewrite Hbody. cbn.
  unfold bind at 1. rewrite Hok.
  unfold call_fetchActivities.
  change (in_scope TopLevel "fetchActivities") with false. cbv iota.
  unfold bind. page_simpl. reflexivity.
Qed.

(** The events of a run whose trace is the old one and more. *)
Lemma events_of_extended {A} (m : M A) (p : Page) (extra : list Event) :
  trace (run m p) = (trace p ++ extra)%list -> events_of m p = extra.
Proof.
  intros H. unfold events_of. rewrite H. apply skipn_app_exact.
Qed.

(** ** Percent-encoding *)

Lemma escape_decodes (c : ascii) (rest : string) :
  percent_decode (escape c ++ rest) =
  match percent_decode rest with
  | Some r => Some (String c r)
  | None => None
  end.
Proof.
  destruct c as [[] [] [] [] [] [] [] []]; cbn;
    destruct (percent_decode rest); reflexivity.
Qed.

Lemma unreserved_decodes (c : ascii) (rest : string) :
  unreserved c = true ->
  percent_decode (String c rest) =
  match percent_decode rest with
  | Some r => Some (String c r)
  | None => None
  end.
Proof.
  destruct c as [[] [] [] [] [] [] [] []]; intros Hc;
    try reflexivity; try discriminate Hc.
Qed.

Lemma escape_is_safe (c : ascii) : all_chars escaped_char (escape c) = true.
Proof.
  destruct c as [[] [] [] [] [] [] [] []]; reflexivity.
Qed.

(** What [encodeURIComponent] returns, when it returns, is made of unreserved marks and
    percent signs only, and decodes back to its argument. *)
Lemma percent_encode_safe (s : string) :
  all_chars escaped_char (percent_encode s) = true.
Proof.
  induction s as [| c s IH]; [reflexivity |].
  cbn [percent_encode]. destruct (unreserved c) eqn:Hc.
  - cbn [all_chars]. unfold escaped_char at 1. rewrite Hc, IH. reflexivity.
  - rewrite all_chars_app, escape_is_safe, IH. reflexivity.
Qed.

Lemma percent_encode_decodes (s : string) :
  percent_decode (percent_encode s) = Some s.
Proof.
  induction s as [| c s IH]; [reflexivity |].
  cbn [percent_encode]. destruct (unreserved c) eqn:Hc.
  - rewrite unreserved_decodes by assumption. now rewrite IH.
  - rewrite escape_decodes. now rewrite IH.
Qed.

(** A slash, an ampersand, an equals sign or a space never survives. *)
Lemma percent_encode_no_separator (s : string) :
  all_chars (fun c => negb (existsb (Ascii.eqb c) ["/"; "&"; "="; " "; "?"; "#"]%char))
    (percent_encode s) = true.
Proof.
  induction s as [| c s IH]; [reflexivity |].
  cbn [percent_encode]. destruct (unreserved c) eqn:Hc.
  - cbn [all_chars]. rewrite IH, andb_true_r.
    revert Hc. destruct c as [[] [] [] [] [] [] [] []]; intros Hc;
      try reflexivity; discriminate Hc.
  - rewrite all_chars_app, IH, andb_true_r.
    clear. destruct c as [[] [] [] [] [] [] [] []]; reflexivity.
Qed.

(** ** The sign-up and unregister contracts *)

(** The events of an accepted sign-up. *)
Lemma signup_accepted_events (net : Network) (p : Page) (r : Response Result) (result : Result) :
  form_sendable p = true ->
  mutate net (requests_sent p) (form_request p) = Responded r ->
  parsed r = Some result ->
  ok r = true ->
  exists reload_log,
    events_of (submit net) p =
    ([Fetch (form_request p); FormReset; Enter_fetchActivities false;
      Fetch activities_request] ++ reload_log)%list
    /\ (no_payload (list_activities net (S (requests_sent p))) = false -> reload_log = []).
Proof.
  intros Hsend Hreply Hbody Hok. unfold events_of, run.
  rewrite (submit_accepted net p r result Hsend Hreply Hbody Hok).
  destruct (payload_or_not (list_activities net (S (requests_sent p))))
    as [Hfail | (r' & activities & Hreload & Hmap)].
  - eexists. rewrite resume_without_payload by assumption.
    cbn [snd load_failed accepted trace]. rewrite <- app_assoc.
    rewrite skipn_app_exact. cbn [app]. split; [reflexivity |].
    rewrite Hfail. discriminate.
  - exists []. rewrite Hreload, (resume_with_payload false r' activities) by assumption.
    cbn [snd rendered accepted trace].
    rewrite skipn_app_exact. split; reflexivity.
Qed.

(** On the sample page, a sign-up answered [200] with a body that is not
    JSON resets nothing and reloads nothing. *)
Lemma signup_2xx_not_json_counterexample :
  ~ contract_of_accepted_signup (Sample.server Rejected (Sample.not_json 200)) Sample.filled.
Proof.
  intros Hcontract.
  destruct (Hcontract {| status := 200; parsed := None |} eq_refl eq_refl)
    as (_ & _ & Hclass & _).
  unfold run in Hclass. rewrite submit_no_payload in Hclass by reflexivity.
  discriminate Hclass.
Qed.

(** C3, amended: every sign-up that is sent and answered with a 2xx status
    and a JSON object resets the form, enters [fetchActivities] with
    [refreshDropdown = false] and sends the listing request, in this order;
    the message area shows the server's message as a success, visible, with
    one hide timer added; the list container then shows what the reload's
    reply gives; and the options of the dropdown are the ones from before. *)
Theorem signup_success (net : Network) (p : Page) (r : Response Result) (result : Result) :
  form_sendable p = true ->
  mutate net (requests_sent p) (form_request p) = Responded r ->
  ok r = true ->
  parsed r = Some result ->
  (exists reload_log,
      events_of (submit net) p =
      ([Fetch (form_request p); FormReset; Enter_fetchActivities false;
        Fetch activities_request] ++ reload_log)%list)
  /\ input_value (emailInput (run (submit net) p)) = defaultValue (emailInput p)
  /\ messageDiv (run (submit net) p)
     = {| text := match message result with Some t => t | None => "" end;
          classList := ["success"] |}
  /\ visible (messageDiv (run (submit net) p)) = true
  /\ timers (run (submit net) p)
     = (timers p ++ [{| delay := 5000; callback := HideMessage |}])%list
  /\ options (activitySelect (run (submit net) p)) = options (activitySelect p)
  /\ (forall r' activities,
        list_activities net (S (requests_sent p)) = Responded r' ->
        parsed r' = Some activities ->
        activitiesList (run (submit net) p)
        = {| markup := ""; children := map activityCard activities |}).
Proof.
  intros Hsend Hreply Hok Hbody.
  destruct (signup_accepted_events net p r result Hsend Hreply Hbody Hok)
    as (tail & Hevents & _).
  split; [exists tail; exact Hevents |].
  unfold run. rewrite (submit_accepted net p r result Hsend Hreply Hbody Hok).
  fold (run (fetchActivities_resume false (list_activities net (S (requests_sent p))))
            (accepted result p)).
  destruct (resume_keeps_message false (list_activities net (S (requests_sent p)))
              (accepted result p)) as (Hmessage & Htimers & Hemail).
  pose proof (resume_keeps_dropdown (list_activities net (S (requests_sent p)))
                (accepted result p)) as Hdropdown.
  rewrite Hmessage, Htimers, Hdropdown, Hemail.
  repeat split; try reflexivity.
  intros r' activities Hreload Hmap. unfold run.
  now rewrite Hreload, (resume_with_payload false r' activities).
Qed.

Lemma signup_success_witness :
  activitiesList
    (run (submit (Sample.server (Sample.json_response 200 Sample.activities)
                    (Sample.json_response 200 (Sample.says "Signed up"))))
         Sample.filled)
  = {| markup := ""; children := map activityCard Sample.activities |}.
Proof.
  destruct (signup_success
              (Sample.server (Sample.json_response 200 Sample.activities)
                 (Sample.json_response 200 (Sample.says "Signed up")))
              Sample.filled
              {| status := 200; parsed := Some (Sample.says "Signed up") |}
              (Sample.says "Signed up") eq_refl eq_refl eq_refl eq_refl)
    as (_ & _ & _ & _ & _ & _ & Hlist).
  exact (Hlist {| status := 200; parsed := Some Sample.activities |}
               Sample.activities eq_refl eq_refl).
Defined.

(** [detail || fallback] read case by case. *)
Lemma detail_or_fallback_cases (result : Result) :
  (forall d, detail result = Some d -> d <> "" -> detail_or_fallback result = d)
  /\ (detail result = None \/ detail result = Some "" ->
      detail_or_fallback result = "An error occurred").
Proof.
  unfold detail_or_fallback. split.
  - intros d Hd Hne. rewrite Hd.
    destruct (String.eqb_spec d ""); [contradiction | reflexivity].
  - intros [Hd | Hd]; rewrite Hd; reflexivity.
Qed.

(** On the sample page, a sign-up refused with [{"detail": ""}] shows the
    fallback text, not the (empty) detail. *)
Lemma empty_detail_counterexample :
  ~ contract_of_refused_signup
      (Sample.server Rejected (Sample.json_response 400 (Sample.refuses "")))
      Sample.filled.
Proof.
  intros Hcontract.
  specialize (Hcontract {| status := 400; parsed := Some (Sample.refuses "") |}
                (Sample.refuses "") "" eq_refl eq_refl eq_refl eq_refl).
  unfold run in Hcontract.
  rewrite (submit_refused _ _ {| status := 400; parsed := Some (Sample.refuses "") |}
             (Sample.refuses "")) in Hcontract by reflexivity.
  discriminate Hcontract.
Qed.

(** C4, amended: for every sign-up or unregister request that is sent and
    answered with a status outside 2xx and a JSON object in which [detail]
    is absent or a string, the message area shows, as an error, [detail]
    when it is a non-empty string and "An error occurred" when it is absent
    or empty; when the body is not JSON the handler's own failure text is
    shown instead; a refused sign-up does not reset the form. *)
Theorem error_message_shown (net : Network) (p : Page) (r : Response Result)
    (name email : string) :
  ok r = false ->
  (form_sendable p = true ->
   mutate net (requests_sent p) (form_request p) = Responded r ->
   shows_error "Failed to sign up. Please try again." r
     (messageDiv (run (submit net) p))
   /\ ~ In FormReset (events_of (submit net) p)
   /\ emailInput (run (submit net) p) = emailInput p
   /\ selectedIndex (activitySelect (run (submit net) p)) = selectedIndex (activitySelect p))
  /\ (sendable name email = true ->
      mutate net (requests_sent p) (unregister_request name email) = Responded r ->
      shows_error "Failed to unregister participant. Please try again." r
        (messageDiv (run (unregisterParticipant net name email) p))).
Proof.
  intros Hok. split; intros Hsend Hreply.
  - destruct (parsed r) as [result |] eqn:Hbody.
    + assert (Hrun := submit_refused net p r result Hsend Hreply Hbody Hok).
      unfold events_of, run. rewrite Hrun. cbn [snd messageDiv emailInput activitySelect trace].
      rewrite skipn_app_exact.
      destruct (detail_or_fallback_cases result) as [Hdetail Hnone].
      repeat split; cbn [text classList]; try reflexivity.
      * intros result' d Heq. rewrite Hbody in Heq. injection Heq as <-. apply Hdetail.
      * intros result' Heq. rewrite Hbody in Heq. injection Heq as <-. apply Hnone.
      * rewrite Hbody. discriminate.
      * intros [Hin | []]. discriminate Hin.
    + assert (Hfail : no_payload (mutate net (requests_sent p) (form_request p)) = true).
      { rewrite Hreply. cbn. now rewrite Hbody. }
      unfold events_of, run. rewrite (submit_no_payload net p Hsend Hfail).
      cbn [snd messageDiv emailInput activitySelect trace].
      rewrite skipn_app_exact.
      repeat split; cbn [text classList]; try reflexivity;
        try (rewrite Hbody; discriminate).
      intros [Hin | [Hin | []]]; discriminate Hin.
  - destruct (parsed r) as [result |] eqn:Hbody.
    + unfold run.
      rewrite (unregister_refused net name email p r result Hsend Hreply Hbody Hok).
      cbn [snd messageDiv].
      destruct (detail_or_fallback_cases result) as [Hdetail Hnone].
      repeat split; cbn [text classList]; try reflexivity.
      * intros result' d Heq. rewrite Hbody in Heq. injection Heq as <-. apply Hdetail.
      * intros result' Heq. rewrite Hbody in Heq. injection Heq as <-. apply Hnone.
      * rewrite Hbody. discriminate.
    + assert (Hfail : no_payload (mutate net (requests_sent p)
                                    (unregister_request name email)) = true).
      { rewrite Hreply. cbn. now rewrite Hbody. }
      unfold run. rewrite (unregister_no_payload net name email p Hsend Hfail).
      cbn [snd messageDiv].
      repeat split; cbn [text classList]; try reflexivity;
        rewrite Hbody; discriminate.
Qed.

Lemma error_message_shown_witness :
  text (messageDiv
          (run (submit (Sample.server Rejected
                          (Sample.json_response 400 (Sample.refuses "Activity is full"))))
               Sample.filled))
  = "Activity is full".
Proof.
  destruct (error_message_shown
              (Sample.server Rejected
                 (Sample.json_response 400 (Sample.refuses "Activity is full")))
              Sample.filled
              {| status := 400; parsed := Some (Sample.refuses "Activity is full") |}
              "Chess Club" "a@x.com" eq_refl)
    as [Hsignup _].
  destruct (Hsignup eq_refl eq_refl) as [(_ & Hdetail & _) _].
  apply (Hdetail (Sample.refuses "Activity is full") "Activity is full" eq_refl eq_refl).
  discriminate.
Defined.

(** ** The message area and its timers *)

(** A firing hide timer hides the message area and leaves the other pending
    timers pending. *)
Lemma elapse_hides (p : Page) (i : nat) (t : Timer) :
  nth_error (timers p) i = Some t ->
  visible (messageDiv (elapse i p)) = false
  /\ timers (elapse i p) = remove_nth i (timers p).
Proof.
  intros Ht. unfold elapse. rewrite Ht. destruct t as [ms []].
  cbn [callback run_callback]. unfold message_classList_add, with_messageDiv, with_timers.
  cbn [messageDiv timers classList text]. split; [| reflexivity].
  unfold visible, add_class. cbn [classList].
  destruct (existsb (String.eqb "hidden") (classList (messageDiv p))) eqn:Hhidden.
  - now rewrite Hhidden.
  - rewrite existsb_app. cbn. now rewrite orb_true_r.
Qed.

(** Every message shown for a response that was read (a success or a
    refusal) is visible and adds exactly one hide timer of five seconds;
    the timers pending before stay pending. *)
Lemma answered_signup_schedules_hide (net : Network) (p : Page)
    (r : Response Result) (result : Result) :
  form_sendable p = true ->
  mutate net (requests_sent p) (form_request p) = Responded r ->
  parsed r = Some result ->
  visible (messageDiv (run (submit net) p)) = true
  /\ timers (run (submit net) p)
     = (timers p ++ [{| delay := 5000; callback := HideMessage |}])%list.
Proof.
  intros Hsend Hreply Hbody. destruct (ok r) eqn:Hok.
  - unfold run. rewrite (submit_accepted net p r result Hsend Hreply Hbody Hok).
    destruct (resume_keeps_message false (list_activities net (S (requests_sent p)))
                (accepted result p)) as (Hm & Ht & _).
    unfold run in Hm, Ht. rewrite Hm, Ht. split; reflexivity.
  - unfold run. rewrite (submit_refused net p r result Hsend Hreply Hbody Hok).
    split; reflexivity.
Qed.

(** A sign-up that gets no JSON answer shows its failure text and schedules
    nothing: no timer will hide this message. *)
Lemma unanswered_signup_schedules_nothing (net : Network) (p : Page) :
  form_sendable p = true ->
  no_payload (mutate net (requests_sent p) (form_request p)) = true ->
  text (messageDiv (run (submit net) p)) = "Failed to sign up. Please try again."
  /\ visible (messageDiv (run (submit net) p)) = true
  /\ timers (run (submit net) p) = timers p.
Proof.
  intros Hsend Hfail. unfold run. rewrite (submit_no_payload net p Hsend Hfail).
  repeat split; reflexivity.
Qed.

Lemma unanswered_unregister_schedules_nothing (net : Network) (name email : string) (p : Page) :
  sendable name email = true ->
  no_payload (mutate net (requests_sent p) (unregister_request name email)) = true ->
  text (messageDiv (run (unregisterParticipant net name email) p))
  = "Failed to unregister participant. Please try again."
  /\ visible (messageDiv (run (unregisterParticipant net name email) p)) = true
  /\ timers (run (unregisterParticipant net name email) p) = timers p.
Proof.
  intros Hsend Hfail. unfold run.
  rewrite (unregister_no_payload net name email p Hsend Hfail).
  repeat split; reflexivity.
Qed.

(** C5, on the code: with the network down, a sign-up from the sample page
    (message hidden, no timer pending) shows its failure text and leaves no
    timer pending, so nothing hides the message again; the same holds for
    an unregister request. *)
Theorem transport_failure_message_stays
    (down := Sample.server Rejected Rejected) :
  (text (messageDiv (run (submit down) Sample.filled))
   = "Failed to sign up. Please try again."
   /\ visible (messageDiv (run (submit down) Sample.filled)) = true
   /\ timers (run (submit down) Sample.filled) = [])
  /\ (text (messageDiv (run (unregisterParticipant down "Chess Club" "a@x.com") Sample.filled))
      = "Failed to unregister participant. Please try again."
      /\ visible (messageDiv (run (unregisterParticipant down "Chess Club" "a@x.com")
                                Sample.filled)) = true
      /\ timers (run (unregisterParticipant down "Chess Club" "a@x.com") Sample.filled) = []).
Proof.
  split.
  - apply (unanswered_signup_schedules_nothing down Sample.filled); reflexivity.
  - apply (unanswered_unregister_schedules_nothing down "Chess Club" "a@x.com" Sample.filled);
      reflexivity.
Qed.

(** ** Requests *)

Lemma encodeURIComponent_returns (s escaped : string) :
  encodeURIComponent s = Some escaped ->
  well_formed s = true /\ escaped = percent_encode s.
Proof.
  unfold encodeURIComponent. destruct (well_formed s); [| discriminate].
  intros Heq. injection Heq as <-. split; reflexivity.
Qed.

(** The first event of a submission that can escape its strings is its
    request. *)
Lemma submit_sends_first (net : Network) (p : Page) :
  form_sendable p = true ->
  exists rest, events_of (submit net) p = Fetch (form_request p) :: rest.
Proof.
  intros Hsend.
  destruct (payload_or_not (mutate net (requests_sent p) (form_request p)))
    as [Hfail | (r & result & Hreply & Hbody)].
  - eexists. apply events_of_extended. unfold run.
    rewrite (submit_no_payload net p Hsend Hfail). cbn [snd trace]. reflexivity.
  - destruct (ok r) eqn:Hok.
    + destruct (signup_accepted_events net p r result Hsend Hreply Hbody Hok)
        as (tail & Htail & _).
      eexists. rewrite Htail. reflexivity.
    + eexists. apply events_of_extended. unfold run.
      rewrite (submit_refused net p r result Hsend Hreply Hbody Hok).
      cbn [snd trace]. reflexivity.
Qed.

Lemma unregister_sends_first (net : Network) (name email : string) (p : Page) :
  sendable name email = true ->
  exists rest,
    events_of (unregisterParticipant net name email) p
    = Fetch (unregister_request name email) :: rest.
Proof.
  intros Hsend.
  destruct (payload_or_not (mutate net (requests_sent p) (unregister_request name email)))
    as [Hfail | (r & result & Hreply & Hbody)].
  - eexists. apply events_of_extended. unfold run.
    rewrite (unregister_no_payload net name email p Hsend Hfail). cbn [snd trace]. reflexivity.
  - destruct (ok r) eqn:Hok; eexists; apply events_of_extended; unfold run.
    + rewrite (unregister_accepted net name email p r result Hsend Hreply Hbody Hok).
      cbn [snd trace]. reflexivity.
    + rewrite (unregister_refused net name email p r result Hsend Hreply Hbody Hok).
      cbn [snd trace]. reflexivity.
Qed.

(** What a handler does when [encodeURIComponent] throws: it logs and sends
    nothing. *)
Lemma submit_unsendable_events (net : Network) (p : Page) :
  form_sendable p = false ->
  events_of (submit net) p = [ConsoleError "Error signing up:" URIError].
Proof.
  intros Hsend. apply events_of_extended. unfold run.
  now rewrite (submit_unsendable net p Hsend).
Qed.

Lemma unregister_unsendable_events (net : Network) (name email : string) (p : Page) :
  sendable name email = false ->
  events_of (unregisterParticipant net name email) p
  = [ConsoleError "Error unregistering participant:" URIError].
Proof.
  intros Hsend. apply events_of_extended. unfold run.
  now rewrite (unregister_unsendable net name email p Hsend).
Qed.

(** On the sample page with a lone surrogate typed into the email field, a
    submission sends no request at all: [encodeURIComponent] throws inside
    the [try] block, before [fetch] is called. *)
Lemma lone_surrogate_counterexample :
  ~ contract_of_requests (Sample.server Rejected Rejected) Sample.mistyped
      "Chess Club" "a@x.com".
Proof.
  intros [(req & Hin & _) _].
  rewrite (submit_unsendable_events _ Sample.mistyped eq_refl) in Hin.
  destruct Hin as [Hin | []]. discriminate Hin.
Qed.

(** C7, amended: every submission and every unregistration whose activity
    name and email hold no lone surrogate first sends
    [POST /activities/{activity}/signup], respectively
    [DELETE /activities/{activity}/unregister], with content type
    [application/x-www-form-urlencoded] and body [email={email}], the
    activity in the path and the email in the body being what
    [encodeURIComponent] returns for them; with a lone surrogate in either
    string the handler sends no request and logs the [URIError].  What
    [encodeURIComponent] returns is made of unreserved marks and [%XX]
    escapes only, free of separators, and decodes back to its argument; the
    characters it leaves as they are are the letters, the digits and
    [-_.!~*'()]. *)
Theorem requests_form_encoded (net : Network) (p : Page) (name email : string) :
  (forall path value,
      encodeURIComponent (select_value (activitySelect p)) = Some path ->
      encodeURIComponent (input_value (emailInput p)) = Some value ->
      exists rest,
        events_of (submit net) p =
        Fetch {| method := POST;
                 url := "/activities/" ++ path ++ "/signup";
                 headers := [("Content-Type", "application/x-www-form-urlencoded")];
                 body := Some ("email=" ++ value) |}
        :: rest)
  /\ (forall path value,
        encodeURIComponent name = Some path ->
        encodeURIComponent email = Some value ->
        exists rest,
          events_of (unregisterParticipant net name email) p =
          Fetch {| method := DELETE;
                   url := "/activities/" ++ path ++ "/unregister";
                   headers := [("Content-Type", "application/x-www-form-urlencoded")];
                   body := Some ("email=" ++ value) |}
          :: rest)
  /\ (encodeURIComponent (select_value (activitySelect p)) = None
      \/ encodeURIComponent (input_value (emailInput p)) = None ->
      events_of (submit net) p = [ConsoleError "Error signing up:" URIError])
  /\ (encodeURIComponent name = None \/ encodeURIComponent email = None ->
      events_of (unregisterParticipant net name email) p
      = [ConsoleError "Error unregistering participant:" URIError])
  /\ (forall s escaped,
        encodeURIComponent s = Some escaped ->
        all_chars escaped_char escaped = true
        /\ all_chars (fun c => negb (existsb (Ascii.eqb c) ["/"; "&"; "="; " "; "?"; "#"]%char))
             escaped = true
        /\ percent_decode escaped = Some s)
  /\ (forall c,
        unreserved c
        = existsb (Ascii.eqb c)
            (list_ascii_of_string
               "ABCDEFGHIJKLMNOPQRSTUVWXYZabcdefghijklmnopqrstuvwxyz0123456789-_.!~*'()")).
Proof.
  split; [| split; [| split; [| split; [| split]]]].
  - intros path value Hpath Hvalue.
    apply encodeURIComponent_returns in Hpath as [Ha ->].
    apply encodeURIComponent_returns in Hvalue as [He ->].
    apply submit_sends_first. unfold form_sendable, sendable. now rewrite Ha, He.
  - intros path value Hpath Hvalue.
    apply encodeURIComponent_returns in Hpath as [Ha ->].
    apply encodeURIComponent_returns in Hvalue as [He ->].
    apply unregister_sends_first. unfold sendable. now rewrite Ha, He.
  - intros Hthrows. apply submit_unsendable_events.
    unfold form_sendable, sendable. unfold encodeURIComponent in Hthrows.
    destruct (well_formed (select_value (activitySelect p))); [| reflexivity].
    destruct (well_formed (input_value (emailInput p))); [| reflexivity].
    destruct Hthrows as [H | H]; discriminate H.
  - intros Hthrows. apply unregister_unsendable_events.
    unfold sendable. unfold encodeURIComponent in Hthrows.
    destruct (well_formed name); [| reflexivity].
    destruct (well_formed email); [| reflexivity].
    destruct Hthrows as [H | H]; discriminate H.
  - intros s escaped Hescaped.
    apply encodeURIComponent_returns in Hescaped as [_ ->].
    split; [apply percent_encode_safe |].
    split; [apply percent_encode_no_separator | apply percent_encode_decodes].
  - intros c. destruct c as [[] [] [] [] [] [] [] []]; reflexivity.
Qed.

(** On the sample page: the sign-up of [b@x.com] to [Chess Club], and the
    unregistration of [a@x.com] from it, as they leave the page. *)
Lemma requests_form_encoded_witness :
  (exists rest,
      events_of (submit (Sample.server Rejected Rejected)) Sample.filled =
      Fetch {| method := POST;
               url := "/activities/Chess%20Club/signup";
               headers := [("Content-Type", "application/x-www-form-urlencoded")];
               body := Some "email=b%40x.com" |}
      :: rest)
  /\ (exists rest,
        events_of (unregisterParticipant (Sample.server Rejected Rejected)
                     "Chess Club" "a+b@x.com")
                  Sample.filled =
        Fetch {| method := DELETE;
                 url := "/activities/Chess%20Club/unregister";
                 headers := [("Content-Type", "application/x-www-form-urlencoded")];
                 body := Some "email=a%2Bb%40x.com" |}
        :: rest).
Proof.
  destruct (requests_form_encoded (Sample.server Rejected Rejected) Sample.filled
              "Chess Club" "a+b@x.com") as (Hsubmit & Hunregister & _).
  split.
  - exact (Hsubmit "Chess%20Club" "b%40x.com" eq_refl eq_refl).
  - exact (Hunregister "Chess%20Club" "a%2Bb%40x.com" eq_refl eq_refl).
Defined.

(** ** Diagnostics *)

(** On the sample page, a listing answered [200] with a body that is not
    JSON is logged although the transport worked. *)
Lemma parse_failure_logged_counterexample :
  ~ contract_of_logging
      (Sample.server (Sample.not_json 200) Rejected) Sample.blank.
Proof.
  intros [Hlogged _].
  assert (Hrejected : @Sample.not_json ActivityMap 200 = Rejected).
  { apply Hlogged. exists "Error fetching activities:", SyntaxError.
    right. right. left. reflexivity. }
  discriminate Hrejected.
Qed.

(** C9, amended: a handler writes its diagnostic to the console whenever its
    [catch] block runs, not only on a transport failure: when the fetch is
    rejected or the body of the response is not JSON (in a load, a sign-up
    and an unregister request alike), and when [encodeURIComponent] throws
    before a sign-up or unregister request is sent.  A sign-up or unregister
    request answered with a status outside 2xx and a JSON object logs
    nothing, with or without [detail]: its request is the only event. *)
Theorem diagnostics_on_failed_requests (net : Network) (refreshDropdown : bool)
    (p : Page) (name email : string) :
  (no_payload (list_activities net (requests_sent p)) = true ->
   In (ConsoleError "Error fetching activities:"
         (failure_of (list_activities net (requests_sent p))))
      (events_of (fetchActivities net refreshDropdown) p))
  /\ (form_sendable p = true ->
      no_payload (mutate net (requests_sent p) (form_request p)) = true ->
      In (ConsoleError "Error signing up:"
            (failure_of (mutate net (requests_sent p) (form_request p))))
         (events_of (submit net) p))
  /\ (sendable name email = true ->
      no_payload (mutate net (requests_sent p) (unregister_request name email)) = true ->
      In (ConsoleError "Error unregistering participant:"
            (failure_of (mutate net (requests_sent p) (unregister_request name email))))
         (events_of (unregisterParticipant net name email) p))
  /\ (form_sendable p = false ->
      In (ConsoleError "Error signing up:" URIError) (events_of (submit net) p))
  /\ (sendable name email = false ->
      In (ConsoleError "Error unregistering participant:" URIError)
         (events_of (unregisterParticipant net name email) p))
  /\ (forall r result,
        ok r = false -> parsed r = Some result ->
        (form_sendable p = true ->
         mutate net (requests_sent p) (form_request p) = Responded r ->
         events_of (submit net) p = [Fetch (form_request p)])
        /\ (sendable name email = true ->
            mutate net (requests_sent p) (unregister_request name email) = Responded r ->
            events_of (unregisterParticipant net name email) p
            = [Fetch (unregister_request name email)])).
Proof.
  split; [| split; [| split; [| split; [| split]]]].
  - intros Hfail.
    rewrite (events_of_extended _ p
               [Enter_fetchActivities refreshDropdown; Fetch activities_request;
                ConsoleError "Error fetching activities:"
                  (failure_of (list_activities net (requests_sent p)))]).
    + right. right. left. reflexivity.
    + unfold run. rewrite fetchActivities_failed by assumption.
      cbn [snd load_failed emit trace]. now rewrite <- !app_assoc.
  - intros Hsend Hfail.
    rewrite (events_of_extended _ p
               [Fetch (form_request p);
                ConsoleError "Error signing up:"
                  (failure_of (mutate net (requests_sent p) (form_request p)))]).
    + right. left. reflexivity.
    + unfold run. now rewrite (submit_no_payload net p Hsend Hfail).
  - intros Hsend Hfail.
    rewrite (events_of_extended _ p
               [Fetch (unregister_request name email);
                ConsoleError "Error unregistering participant:"
                  (failure_of (mutate net (requests_sent p)
                                 (unregister_request name email)))]).
    + right. left. reflexivity.
    + unfold run. now rewrite (unregister_no_payload net name email p Hsend Hfail).
  - intros Hsend. rewrite (submit_unsendable_events net p Hsend). left. reflexivity.
  - intros Hsend. rewrite (unregister_unsendable_events net name email p Hsend).
    left. reflexivity.
  - intros r result Hok Hbody.
    split; intros Hsend Hreply; apply events_of_extended; unfold run.
    + now rewrite (submit_refused net p r result Hsend Hreply Hbody Hok).
    + now rewrite (unregister_refused net name email p r result Hsend Hreply Hbody Hok).
Qed.

(** On the sample page: a sign-up from the page with the network down logs
    the rejection, and one with a lone surrogate in the email field logs the
    [URIError]. *)
Lemma diagnostics_on_failed_requests_witness :
  In (ConsoleError "Error signing up:" NetworkError)
     (events_of (submit (Sample.server Rejected Rejected)) Sample.filled)
  /\ In (ConsoleError "Error signing up:" URIError)
        (events_of (submit (Sample.server Rejected Rejected)) Sample.mistyped).
Proof.
  split.
  - destruct (diagnostics_on_failed_requests (Sample.server Rejected Rejected) true
                Sample.filled "Chess Club" "a@x.com") as (_ & Hsignup & _).
    exact (Hsignup eq_refl eq_refl).
  - destruct (diagnostics_on_failed_requests (Sample.server Rejected Rejected) true
                Sample.mistyped "Chess Club" "a@x.com") as (_ & _ & _ & Hthrows & _).
    exact (Hthrows eq_refl).
Defined.

(** ** Refused requests *)

(** C10: a sign-up or unregister request answered with a status outside 2xx
    never enters [fetchActivities] and sends no listing request: the list
    container and the dropdown are exactly as they were, and only the
    message area (with its timers) changes. *)
Theorem refused_mutation_keeps_activities (net : Network) (p : Page)
    (r : Response Result) (name email : string) :
  ok r = false ->
  (mutate net (requests_sent p) (form_request p) = Responded r ->
   activitiesList (run (submit net) p) = activitiesList p
   /\ activitySelect (run (submit net) p) = activitySelect p
   /\ emailInput (run (submit net) p) = emailInput p
   /\ (forall refreshDropdown,
         ~ In (Enter_fetchActivities refreshDropdown) (events_of (submit net) p))
   /\ ~ In (Fetch activities_request) (events_of (submit net) p))
  /\ (mutate net (requests_sent p) (unregister_request name email) = Responded r ->
      activitiesList (run (unregisterParticipant net name email) p) = activitiesList p
      /\ activitySelect (run (unregisterParticipant net name email) p) = activitySelect p
      /\ emailInput (run (unregisterParticipant net name email) p) = emailInput p
      /\ (forall refreshDropdown,
            ~ In (Enter_fetchActivities refreshDropdown)
                 (events_of (unregisterParticipant net name email) p))
      /\ ~ In (Fetch activities_request)
              (events_of (unregisterParticipant net name email) p)).
Proof.
  intros Hok. split; intros Hreply.
  - destruct (form_sendable p) eqn:Hsend.
    + destruct (parsed r) as [result |] eqn:Hbody.
      * unfold events_of, run.
        rewrite (submit_refused net p r result Hsend Hreply Hbody Hok).
        cbn [snd activitiesList activitySelect emailInput trace].
        rewrite skipn_app_exact.
        repeat split; try reflexivity.
        -- intros refreshDropdown [Hin | []]. discriminate Hin.
        -- intros [Hin | []]. discriminate Hin.
      * assert (Hfail : no_payload (mutate net (requests_sent p) (form_request p)) = true).
        { rewrite Hreply. cbn. now rewrite Hbody. }
        unfold events_of, run. rewrite (submit_no_payload net p Hsend Hfail).
        cbn [snd activitiesList activitySelect emailInput trace].
        rewrite skipn_app_exact.
        repeat split; try reflexivity.
        -- intros refreshDropdown [Hin | [Hin | []]]; discriminate Hin.
        -- intros [Hin | [Hin | []]]; discriminate Hin.
    + unfold events_of, run. rewrite (submit_unsendable net p Hsend).
      cbn [snd activitiesList activitySelect emailInput trace].
      rewrite skipn_app_exact.
      repeat split; try reflexivity.
      * intros refreshDropdown [Hin | []]. discriminate Hin.
      * intros [Hin | []]. discriminate Hin.
  - destruct (sendable name email) eqn:Hsend.
    + destruct (parsed r) as [result |] eqn:Hbody.
      * unfold events_of, run.
        rewrite (unregister_refused net name email p r result Hsend Hreply Hbody Hok).
        cbn [snd activitiesList activitySelect emailInput trace].
        rewrite skipn_app_exact.
        repeat split; try reflexivity.
        -- intros refreshDropdown [Hin | []]. discriminate Hin.
        -- intros [Hin | []]. discriminate Hin.
      * assert (Hfail : no_payload (mutate net (requests_sent p)
                                      (unregister_request name email)) = true).
        { rewrite Hreply. cbn. now rewrite Hbody. }
        unfold events_of, run. rewrite (unregister_no_payload net name email p Hsend Hfail).
        cbn [snd activitiesList activitySelect emailInput trace].
        rewrite skipn_app_exact.
        repeat split; try reflexivity.
        -- intros refreshDropdown [Hin | [Hin | []]]; discriminate Hin.
        -- intros [Hin | [Hin | []]]; discriminate Hin.
    + unfold events_of, run. rewrite (unregister_unsendable net name email p Hsend).
      cbn [snd activitiesList activitySelect emailInput trace].
      rewrite skipn_app_exact.
      repeat split; try reflexivity.
      * intros refreshDropdown [Hin | []]. discriminate Hin.
      * intros [Hin | []]. discriminate Hin.
Qed.

Lemma refused_mutation_keeps_activities_witness :
  activitiesList
    (run (submit (Sample.server Rejected
                    (Sample.json_response 400 (Sample.refuses "Activity is full"))))
         Sample.filled)
  = {| markup := ""; children := map activityCard Sample.activities |}.
Proof.
  destruct (refused_mutation_keeps_activities
              (Sample.server Rejected
                 (Sample.json_response 400 (Sample.refuses "Activity is full")))
              Sample.filled
              {| status := 400; parsed := Some (Sample.refuses "Activity is full") |}
              "Chess Club" "a@x.com" eq_refl)
    as [Hsignup _].
  exact (proj1 (Hsignup eq_refl)).
Defined.

(** ** Nothing escapes, nothing is cancelled *)

(** No handler lets an exception through, and none removes a pending timer:
    the timers after a run are the ones before, followed by those the run
    scheduled. *)
Lemma submit_total (net : Network) (p : Page) :
  outcome (submit net) p = Normal tt
  /\ exists scheduled, timers (run (submit net) p) = (timers p ++ scheduled)%list.
Proof.
  unfold outcome, run.
  destruct (form_sendable p) eqn:Hsend.
  - destruct (payload_or_not (mutate net (requests_sent p) (form_request p)))
      as [Hfail | (r & result & Hreply & Hbody)].
    + rewrite (submit_no_payload net p Hsend Hfail). split; [reflexivity |].
      exists []. cbn. now rewrite app_nil_r.
    + destruct (ok r) eqn:Hok.
      * rewrite (submit_accepted net p r result Hsend Hreply Hbody Hok).
        destruct (payload_or_not (list_activities net (S (requests_sent p))))
          as [Hfail | (r' & activities & Hreload & Hmap)].
        -- rewrite resume_without_payload by assumption. split; [reflexivity |].
           exists [hide_timer]. reflexivity.
        -- rewrite Hreload, (resume_with_payload false r' activities) by assumption.
           split; [reflexivity |]. exists [hide_timer]. reflexivity.
      * rewrite (submit_refused net p r result Hsend Hreply Hbody Hok).
        split; [reflexivity |]. exists [hide_timer]. reflexivity.
  - rewrite (submit_unsendable net p Hsend). split; [reflexivity |].
    exists []. cbn. now rewrite app_nil_r.
Qed.

Lemma unregisterParticipant_total (net : Network) (name email : string) (p : Page) :
  outcome (unregisterParticipant net name email) p = Normal tt
  /\ exists scheduled,
       timers (run (unregisterParticipant net name email) p) = (timers p ++ scheduled)%list.
Proof.
  unfold outcome, run.
  destruct (sendable name email) eqn:Hsend.
  - destruct (payload_or_not (mutate net (requests_sent p) (unregister_request name email)))
      as [Hfail | (r & result & Hreply & Hbody)].
    + rewrite (unregister_no_payload net name email p Hsend Hfail). split; [reflexivity |].
      exists []. cbn. now rewrite app_nil_r.
    + destruct (ok r) eqn:Hok.
      * rewrite (unregister_accepted net name email p r result Hsend Hreply Hbody Hok).
        split; [reflexivity |]. exists []. cbn. now rewrite app_nil_r.
      * rewrite (unregister_refused net name email p r result Hsend Hreply Hbody Hok).
        split; [reflexivity |]. exists [hide_timer]. reflexivity.
  - rewrite (unregister_unsendable net name email p Hsend). split; [reflexivity |].
    exists []. cbn. now rewrite app_nil_r.
Qed.

(** The scenario of the specification, run: one card, capacity 1/2, one row
    for the participant, two options in the dropdown. *)
Example sample_load :
  let p := run (DOMContentLoaded
                  (Sample.server (Sample.json_response 200 Sample.activities) Rejected))
               Sample.blank in
  List.length (children (activitiesList p)) = 1
  /\ map (fun card => occurrences "<p><strong>Capacity:</strong> 1/2</p>" (innerHTML card))
       (children (activitiesList p)) = [1]
  /\ map (fun card => occurrences (email_span "a@x.com") (innerHTML card))
       (children (activitiesList p)) = [1]
  /\ map textContent (options (activitySelect p)) = ["-- Select an activity --"; "Chess Club"].
Proof.
  vm_compute. repeat split; reflexivity.
Qed.

(** * Further properties of the script *)

(** ** Unregistering, whatever the server answers *)

Lemma reply_kinds (reply : Reply Result) :
  no_payload reply = true
  \/ (exists r result, reply = Responded r /\ parsed r = Some result /\ ok r = true)
  \/ (exists r result, reply = Responded r /\ parsed r = Some result /\ ok r = false).
Proof.
  destruct (payload_or_not reply) as [Hfail | (r & result & Hreply & Hbody)];
    [left; assumption | right].
  destruct (ok r) eqn:Hok; [left | right]; exists r, result; auto.
Qed.

(** X1: [unregisterParticipant] never redraws the activities and never ends
    on a success message.  Whatever the server answers, it sends its one
    DELETE request and nothing else (and no request at all when
    [encodeURIComponent] throws on a lone surrogate in the activity name or
    the email), never enters [fetchActivities], leaves the list container,
    the dropdown and the email field as they were, and leaves the message
    area visible with the class [error]. *)
Theorem unregister_never_reloads (net : Network) (name email : string) (p : Page) :
  fetches (events_of (unregisterParticipant net name email) p)
  = (if sendable name email then [unregister_request name email] else [])
  /\ (forall refreshDropdown,
        ~ In (Enter_fetchActivities refreshDropdown)
             (events_of (unregisterParticipant net name email) p))
  /\ activitiesList (run (unregisterParticipant net name email) p) = activitiesList p
  /\ activitySelect (run (unregisterParticipant net name email) p) = activitySelect p
  /\ emailInput (run (unregisterParticipant net name email) p) = emailInput p
  /\ classList (messageDiv (run (unregisterParticipant net name email) p)) = ["error"]
  /\ visible (messageDiv (run (unregisterParticipant net name email) p)) = true.
Proof.
  destruct (sendable name email) eqn:Hsend.
  - destruct (reply_kinds (mutate net (requests_sent p) (unregister_request name email)))
      as [Hfail | [(r & result & Hreply & Hbody & Hok) | (r & result & Hreply & Hbody & Hok)]];
      unfold events_of, run.
    + rewrite (unregister_no_payload net name email p Hsend Hfail).
      cbn [snd activitiesList activitySelect emailInput messageDiv classList trace].
      rewrite skipn_app_exact. repeat split; try reflexivity.
      intros refreshDropdown [Hin | [Hin | []]]; discriminate Hin.
    + rewrite (unregister_accepted net name email p r result Hsend Hreply Hbody Hok).
      cbn [snd activitiesList activitySelect emailInput messageDiv classList trace].
      rewrite skipn_app_exact. repeat split; try reflexivity.
      intros refreshDropdown [Hin | [Hin | []]]; discriminate Hin.
    + rewrite (unregister_refused net name email p r result Hsend Hreply Hbody Hok).
      cbn [snd activitiesList activitySelect emailInput messageDiv classList trace].
      rewrite skipn_app_exact. repeat split; try reflexivity.
      intros refreshDropdown [Hin | []]; discriminate Hin.
  - unfold events_of, run. rewrite (unregister_unsendable net name email p Hsend).
    cbn [snd activitiesList activitySelect emailInput messageDiv classList trace].
    rewrite skipn_app_exact. repeat split; try reflexivity.
    intros refreshDropdown [Hin | []]; discriminate Hin.
Qed.

(** On the sample page: the one request of an unregistration, and none for
    an email that holds a lone surrogate. *)
Lemma unregister_never_reloads_witness :
  fetches (events_of (unregisterParticipant (Sample.server Rejected Rejected)
                        "Chess Club" "a@x.com") Sample.filled)
  = [{| method := DELETE;
        url := "/activities/Chess%20Club/unregister";
        headers := [("Content-Type", "application/x-www-form-urlencoded")];
        body := Some "email=a%40x.com" |}]
  /\ fetches (events_of (unregisterParticipant (Sample.server Rejected Rejected)
                           "Chess Club" Sample.lone_surrogate) Sample.filled)
     = [].
Proof.
  split.
  - exact (proj1 (unregister_never_reloads (Sample.server Rejected Rejected)
                    "Chess Club" "a@x.com" Sample.filled)).
  - exact (proj1 (unregister_never_reloads (Sample.server Rejected Rejected)
                    "Chess Club" Sample.lone_surrogate Sample.filled)).
Defined.

(** X2: when the server accepts an unregister request that was sent (2xx,
    JSON body), the
    call of [fetchActivities] at line 137 is out of scope and throws; the
    [catch] block replaces the server's message by the failure text, logs
    the [ReferenceError], and schedules no hide timer. *)
Theorem unregister_accepted_reports_failure (net : Network) (name email : string)
    (p : Page) (r : Response Result) (result : Result) :
  sendable name email = true ->
  mutate net (requests_sent p) (unregister_request name email) = Responded r ->
  ok r = true ->
  parsed r = Some result ->
  outcome (call_fetchActivities net TopLevel false) p = Throw (ReferenceError "fetchActivities")
  /\ text (messageDiv (run (unregisterParticipant net name email) p))
     = "Failed to unregister participant. Please try again."
  /\ events_of (unregisterParticipant net name email) p
     = [Fetch (unregister_request name email);
        ConsoleError "Error unregistering participant:" (ReferenceError "fetchActivities")]
  /\ timers (run (unregisterParticipant net name email) p) = timers p.
Proof.
  intros Hsend Hreply Hok Hbody. split; [reflexivity |].
  unfold events_of, run.
  rewrite (unregister_accepted net name email p r result Hsend Hreply Hbody Hok).
  cbn [snd messageDiv text timers trace]. rewrite skipn_app_exact.
  repeat split; reflexivity.
Qed.

Lemma unregister_accepted_reports_failure_witness :
  text (messageDiv
          (run (unregisterParticipant
                  (Sample.server Rejected (Sample.json_response 200 (Sample.says "Unregistered")))
                  "Chess Club" "a@x.com")
               Sample.filled))
  = "Failed to unregister participant. Please try again.".
Proof.
  exact (proj1 (proj2 (unregister_accepted_reports_failure
                         (Sample.server Rejected
                            (Sample.json_response 200 (Sample.says "Unregistered")))
                         "Chess Club" "a@x.com" Sample.filled
                         {| status := 200; parsed := Some (Sample.says "Unregistered") |}
                         (Sample.says "Unregistered") eq_refl eq_refl eq_refl eq_refl))).
Defined.

(** ** Exceptions and timers *)

(** X3: no exception leaves a handler: the start-up load, a submission and
    an unregistration all end normally, whatever the server answers. *)
Theorem handlers_catch_everything (net : Network) (name email : string) (p : Page) :
  outcome (DOMContentLoaded net) p = Normal tt
  /\ outcome (submit net) p = Normal tt
  /\ outcome (unregisterParticipant net name email) p = Normal tt.
Proof.
  split; [| split].
  - unfold DOMContentLoaded, call_fetchActivities.
    change (in_scope LoadedCallback "fetchActivities") with true. cbv iota.
    unfold outcome.
    destruct (payload_or_not (list_activities net (requests_sent p)))
      as [Hfail | (r & activities & Hreply & Hbody)].
    + now rewrite fetchActivities_failed.
    + now rewrite (fetchActivities_rendered _ _ _ r activities Hreply Hbody).
  - apply submit_total.
  - apply unregisterParticipant_total.
Qed.

(** X4: which runs schedule a hide timer.  A submission adds exactly one
    timer of 5000 ms when its request is sent and answered with a JSON
    object, whatever the status, and none when [encodeURIComponent] throws,
    when the fetch is rejected or when the body is not JSON; an
    unregistration adds one when its request is sent and refused with a
    JSON object, and none when the request is accepted with a JSON object,
    when [encodeURIComponent] throws, when the fetch is rejected or when
    the body is not JSON; a load adds none.  No run removes or reorders the
    timers that were pending. *)
Theorem timers_scheduled (net : Network) (refreshDropdown : bool)
    (name email : string) (p : Page) :
  timers (run (submit net) p)
  = (timers p ++
     if form_sendable p
        && negb (no_payload (mutate net (requests_sent p) (form_request p)))
     then [{| delay := 5000; callback := HideMessage |}] else [])%list
  /\ timers (run (unregisterParticipant net name email) p)
     = (timers p ++
        if sendable name email
           && refused_with_json (mutate net (requests_sent p) (unregister_request name email))
        then [{| delay := 5000; callback := HideMessage |}] else [])%list
  /\ timers (run (fetchActivities net refreshDropdown) p) = timers p.
Proof.
  split; [| split].
  - destruct (form_sendable p) eqn:Hsend; cbn [andb].
    + destruct (payload_or_not (mutate net (requests_sent p) (form_request p)))
        as [Hfail | (r & result & Hreply & Hbody)].
      * rewrite Hfail.
        destruct (unanswered_signup_schedules_nothing net p Hsend Hfail) as (_ & _ & ->).
        cbn [negb]. now rewrite app_nil_r.
      * destruct (answered_signup_schedules_hide net p r result Hsend Hreply Hbody)
          as [_ ->].
        rewrite Hreply. cbn [no_payload]. now rewrite Hbody.
    + unfold run. rewrite (submit_unsendable net p Hsend). cbn [snd timers].
      now rewrite app_nil_r.
  - destruct (sendable name email) eqn:Hsend; cbn [andb].
    + destruct (reply_kinds (mutate net (requests_sent p) (unregister_request name email)))
        as [Hfail | [(r & result & Hreply & Hbody & Hok)
                    | (r & result & Hreply & Hbody & Hok)]];
        unfold run.
      * rewrite (unregister_no_payload net name email p Hsend Hfail). cbn [snd timers].
        destruct (mutate net (requests_sent p) (unregister_request name email)) as [| r]; cbn.
        -- now rewrite app_nil_r.
        -- cbn in Hfail. destruct (parsed r); [discriminate |].
           rewrite andb_false_r. now rewrite app_nil_r.
      * rewrite (unregister_accepted net name email p r result Hsend Hreply Hbody Hok).
        rewrite Hreply. cbn. rewrite Hok. cbn. now rewrite app_nil_r.
      * rewrite (unregister_refused net name email p r result Hsend Hreply Hbody Hok).
        rewrite Hreply. cbn. rewrite Hok, Hbody. reflexivity.
    + unfold run. rewrite (unregister_unsendable net name email p Hsend). cbn [snd timers].
      now rewrite app_nil_r.
  - unfold run.
    destruct (payload_or_not (list_activities net (requests_sent p)))
      as [Hfail | (r & activities & Hreply & Hbody)].
    + now rewrite fetchActivities_failed.
    + now rewrite (fetchActivities_rendered _ _ _ r activities Hreply Hbody).
Qed.

(** On the sample page: a refused sign-up leaves one timer pending, a
    sign-up with a lone surrogate in the email field none. *)
Lemma timers_scheduled_witness :
  timers (run (submit (Sample.server Rejected
                         (Sample.json_response 400 (Sample.refuses "Activity is full"))))
              Sample.filled)
  = [{| delay := 5000; callback := HideMessage |}]
  /\ timers (run (submit (Sample.server Rejected
                            (Sample.json_response 400 (Sample.refuses "Activity is full"))))
                 Sample.mistyped)
     = [].
Proof.
  split.
  - exact (proj1 (timers_scheduled
                    (Sample.server Rejected
                       (Sample.json_response 400 (Sample.refuses "Activity is full")))
                    false "Chess Club" "a@x.com" Sample.filled)).
  - exact (proj1 (timers_scheduled
                    (Sample.server Rejected
                       (Sample.json_response 400 (Sample.refuses "Activity is full")))
                    false "Chess Club" "a@x.com" Sample.mistyped)).
Defined.

Lemma remove_nth_length {A} (i : nat) (l : list A) :
  i < List.length l -> List.length (remove_nth i l) = pred (List.length l).
Proof.
  revert i. induction l as [| x l IH]; intros i Hi; [cbn in Hi; lia |].
  destruct i as [| j]; cbn; [reflexivity |].
  cbn in Hi. rewrite IH by lia. destruct l; cbn in *; lia.
Qed.

Lemma remove_nth_keeps_last {A} (i : nat) (l : list A) (x : A) :
  i < List.length l -> remove_nth i (l ++ [x]) = (remove_nth i l ++ [x])%list.
Proof.
  revert i. induction l as [| y l IH]; intros i Hi; [cbn in Hi; lia |].
  destruct i as [| j]; cbn; [reflexivity |].
  cbn in Hi. now rewrite IH by lia.
Qed.

(** X5: when a pending timer fires, it alone leaves the pending timers, the
    message area gets the class [hidden] (once, never twice) and keeps its
    text, and nothing else on the page changes. *)
Theorem timer_fires (p : Page) (i : nat) (t : Timer) :
  nth_error (timers p) i = Some t ->
  visible (messageDiv (elapse i p)) = false
  /\ text (messageDiv (elapse i p)) = text (messageDiv p)
  /\ List.length (filter (String.eqb "hidden") (classList (messageDiv (elapse i p)))) =
     Nat.max 1 (List.length (filter (String.eqb "hidden") (classList (messageDiv p))))
  /\ timers (elapse i p) = remove_nth i (timers p)
  /\ List.length (timers (elapse i p)) = pred (List.length (timers p))
  /\ activitiesList (elapse i p) = activitiesList p
  /\ activitySelect (elapse i p) = activitySelect p
  /\ emailInput (elapse i p) = emailInput p
  /\ trace (elapse i p) = trace p.
Proof.
  intros Ht.
  destruct (elapse_hides p i t Ht) as [Hhidden Htimers].
  split; [exact Hhidden |].
  assert (Hi : i < List.length (timers p)).
  { apply nth_error_Some. rewrite Ht. discriminate. }
  rewrite Htimers, (remove_nth_length i (timers p) Hi).
  unfold elapse. rewrite Ht. destruct t as [ms []].
  cbn [callback run_callback]. unfold message_classList_add, with_messageDiv, with_timers.
  cbn [messageDiv timers classList text activitiesList activitySelect emailInput trace].
  repeat split; try reflexivity.
  unfold add_class.
  destruct (existsb (String.eqb "hidden") (classList (messageDiv p))) eqn:Hex.
  - apply existsb_exists in Hex as (c & Hin & Hc).
    assert (Hpos : In c (filter (String.eqb "hidden") (classList (messageDiv p)))).
    { apply filter_In. split; assumption. }
    destruct (filter (String.eqb "hidden") (classList (messageDiv p)));
      [contradiction | cbn; lia].
  - assert (Hnone : filter (String.eqb "hidden") (classList (messageDiv p)) = []).
    { induction (classList (messageDiv p)) as [| c l IH]; [reflexivity |].
      cbn [existsb] in Hex. apply orb_false_iff in Hex as [Hc Hl].
      cbn [filter]. rewrite Hc. now apply IH. }
    rewrite filter_app, Hnone. reflexivity.
Qed.

Lemma timer_fires_witness :
  visible
    (messageDiv
       (elapse 0
          (run (submit (Sample.server Rejected
                          (Sample.json_response 400 (Sample.refuses "Activity is full"))))
               Sample.filled))) = false.
Proof.
  exact (proj1 (timer_fires
                  (run (submit (Sample.server Rejected
                                  (Sample.json_response 400 (Sample.refuses "Activity is full"))))
                       Sample.filled)
                  0 {| delay := 5000; callback := HideMessage |} eq_refl)).
Defined.

(** X6: an older timer hides a newer message.  When a submission is sent and
    answered while a timer of an earlier message is still pending, the new
    message is visible, and the firing of the older timer hides it although
    its own 5-second timer is still pending: the timers are independent and
    none is cancelled when a message is shown. *)
Theorem older_timer_hides_newer_message (net : Network) (p : Page)
    (r : Response Result) (result : Result) (i : nat) (t : Timer) :
  form_sendable p = true ->
  mutate net (requests_sent p) (form_request p) = Responded r ->
  parsed r = Some result ->
  nth_error (timers p) i = Some t ->
  visible (messageDiv (run (submit net) p)) = true
  /\ visible (messageDiv (elapse i (run (submit net) p))) = false
  /\ text (messageDiv (elapse i (run (submit net) p))) = text (messageDiv (run (submit net) p))
  /\ timers (elapse i (run (submit net) p))
     = (remove_nth i (timers p) ++ [{| delay := 5000; callback := HideMessage |}])%list.
Proof.
  intros Hsend Hreply Hbody Ht.
  destruct (answered_signup_schedules_hide net p r result Hsend Hreply Hbody)
    as [Hvisible Htimers].
  assert (Hi : i < List.length (timers p)).
  { apply nth_error_Some. rewrite Ht. discriminate. }
  assert (Ht' : nth_error (timers (run (submit net) p)) i = Some t).
  { rewrite Htimers, nth_error_app1 by assumption. exact Ht. }
  destruct (elapse_hides _ i t Ht') as [Hhidden Hleft].
  split; [exact Hvisible | split; [exact Hhidden | split]].
  - unfold elapse. rewrite Ht'. destruct t as [ms []]. reflexivity.
  - rewrite Hleft, Htimers. now apply remove_nth_keeps_last.
Qed.

Lemma older_timer_hides_newer_message_witness :
  visible
    (messageDiv
       (elapse 0
          (run (submit (Sample.server Rejected
                          (Sample.json_response 400 (Sample.refuses "Activity is full"))))
               (run (submit (Sample.server Rejected
                               (Sample.json_response 400 (Sample.refuses "Activity is full"))))
                    Sample.filled)))) = false.
Proof.
  exact (proj1 (proj2 (older_timer_hides_newer_message
                         (Sample.server Rejected
                            (Sample.json_response 400 (Sample.refuses "Activity is full")))
                         (run (submit (Sample.server Rejected
                                         (Sample.json_response 400
                                            (Sample.refuses "Activity is full"))))
                              Sample.filled)
                         {| status := 400; parsed := Some (Sample.refuses "Activity is full") |}
                         (Sample.refuses "Activity is full")
                         0 {| delay := 5000; callback := HideMessage |}
                         eq_refl eq_refl eq_refl eq_refl))).
Defined.

(** ** What a submission shows and sends *)

(** The runs of a submission, by their events and the class they end with. *)
Lemma submit_events (net : Network) (p : Page) :
  (form_sendable p = false
   /\ events_of (submit net) p = [ConsoleError "Error signing up:" URIError]
   /\ classList (messageDiv (run (submit net) p)) = ["error"])
  \/ (exists error,
        events_of (submit net) p
        = [Fetch (form_request p); ConsoleError "Error signing up:" error]
        /\ classList (messageDiv (run (submit net) p)) = ["error"])
  \/ (events_of (submit net) p = [Fetch (form_request p)]
      /\ classList (messageDiv (run (submit net) p)) = ["error"])
  \/ (exists r reload_log,
        form_sendable p = true
        /\ mutate net (requests_sent p) (form_request p) = Responded r
        /\ ok r = true
        /\ events_of (submit net) p
           = ([Fetch (form_request p); FormReset; Enter_fetchActivities false;
               Fetch activities_request] ++ reload_log)%list
        /\ (forall e, In e reload_log ->
              exists error, e = ConsoleError "Error fetching activities:" error)
        /\ classList (messageDiv (run (submit net) p)) = ["success"]).
Proof.
  destruct (form_sendable p) eqn:Hsend.
  - destruct (reply_kinds (mutate net (requests_sent p) (form_request p)))
      as [Hfail | [(r & result & Hreply & Hbody & Hok) | (r & result & Hreply & Hbody & Hok)]].
    + right. left. eexists. unfold events_of, run.
      rewrite (submit_no_payload net p Hsend Hfail).
      cbn [snd trace messageDiv classList]. rewrite skipn_app_exact. split; reflexivity.
    + right. right. right. exists r.
      destruct (signup_accepted_events net p r result Hsend Hreply Hbody Hok)
        as (tail & Hevents & Hquiet).
      exists tail.
      split; [reflexivity | split; [exact Hreply | split; [exact Hok | split; [exact Hevents |]]]].
      split.
      * intros e He.
        destruct (payload_or_not (list_activities net (S (requests_sent p))))
          as [Hfail | (r' & activities & Hreload & Hmap)].
        -- revert Hevents. unfold events_of, run.
           rewrite (submit_accepted net p r result Hsend Hreply Hbody Hok).
           rewrite resume_without_payload by assumption.
           cbn [snd load_failed accepted trace]. rewrite <- app_assoc, skipn_app_exact.
           cbn [app]. intros Heq. injection Heq as <-.
           destruct He as [<- | []]. eexists. reflexivity.
        -- rewrite Hquiet in He; [contradiction |].
           rewrite Hreload. cbn. now rewrite Hmap.
      * unfold run. rewrite (submit_accepted net p r result Hsend Hreply Hbody Hok).
        destruct (resume_keeps_message false (list_activities net (S (requests_sent p)))
                    (accepted result p)) as (Hm & _ & _).
        unfold run in Hm. now rewrite Hm.
    + right. right. left. unfold events_of, run.
      rewrite (submit_refused net p r result Hsend Hreply Hbody Hok).
      cbn [snd trace messageDiv classList]. rewrite skipn_app_exact. split; reflexivity.
  - left. split; [reflexivity |]. unfold events_of, run.
    rewrite (submit_unsendable net p Hsend).
    cbn [snd trace messageDiv classList]. rewrite skipn_app_exact. split; reflexivity.
Qed.

Lemma accepted_with_json_inv {T} (reply : Reply T) :
  accepted_with_json reply = true ->
  exists r payload, reply = Responded r /\ ok r = true /\ parsed r = Some payload.
Proof.
  destruct reply as [| r]; [discriminate |]. cbn.
  intros Hacc. apply andb_true_iff in Hacc as [Hok Hbody].
  destruct (parsed r) as [payload |] eqn:Hparsed; [| discriminate Hbody].
  exists r, payload. auto.
Qed.

(** X7: a submission always ends with the message area visible, as a
    success or as an error.  It ends as a success exactly when it has reset
    the form, and that is exactly when it has entered [fetchActivities]
    with [refreshDropdown = false]; it never enters it with
    [refreshDropdown = true].  A success needs a request that was sent and
    a response with a 2xx status; and every submission that is sent and
    answered with a 2xx status and a JSON object ends as a success. *)
Theorem submit_success_iff (net : Network) (p : Page) :
  visible (messageDiv (run (submit net) p)) = true
  /\ (classList (messageDiv (run (submit net) p)) = ["success"]
      \/ classList (messageDiv (run (submit net) p)) = ["error"])
  /\ (classList (messageDiv (run (submit net) p)) = ["success"]
      <-> In FormReset (events_of (submit net) p))
  /\ (In FormReset (events_of (submit net) p)
      <-> In (Enter_fetchActivities false) (events_of (submit net) p))
  /\ ~ In (Enter_fetchActivities true) (events_of (submit net) p)
  /\ (classList (messageDiv (run (submit net) p)) = ["success"] ->
      form_sendable p = true
      /\ exists r, mutate net (requests_sent p) (form_request p) = Responded r
                   /\ ok r = true)
  /\ (form_sendable p = true ->
      accepted_with_json (mutate net (requests_sent p) (form_request p)) = true ->
      classList (messageDiv (run (submit net) p)) = ["success"]).
Proof.
  assert (Hvisible : visible (messageDiv (run (submit net) p)) = true).
  { destruct (form_sendable p) eqn:Hsend.
    - destruct (payload_or_not (mutate net (requests_sent p) (form_request p)))
        as [Hfail | (r & result & Hreply & Hbody)].
      + unfold run. now rewrite (submit_no_payload net p Hsend Hfail).
      + apply (answered_signup_schedules_hide net p r result Hsend Hreply Hbody).
    - unfold run. now rewrite (submit_unsendable net p Hsend). }
  assert (Hlast : form_sendable p = true ->
                  accepted_with_json (mutate net (requests_sent p) (form_request p)) = true ->
                  classList (messageDiv (run (submit net) p)) = ["success"]).
  { intros Hsend Hacc.
    apply accepted_with_json_inv in Hacc as (r & result & Hreply & Hok & Hparsed).
    unfold run. rewrite (submit_accepted net p r result Hsend Hreply Hparsed Hok).
    destruct (resume_keeps_message false (list_activities net (S (requests_sent p)))
                (accepted result p)) as (Hm & _ & _).
    unfold run in Hm. now rewrite Hm. }
  split; [exact Hvisible |].
  destruct (submit_events net p)
    as [(Hsend & Hevents & Herror) | [(error & Hevents & Herror) | [(Hevents & Herror)
       | (r & tail & Hsend & Hreply & Hok & Hevents & Htail & Hsuccess)]]].
  - rewrite Hevents, Herror.
    split; [right; reflexivity |].
    split; [split; [discriminate | intros [Hin | []]; discriminate Hin] |].
    split; [split; intros [Hin | []]; discriminate Hin |].
    split; [intros [Hin | []]; discriminate Hin |].
    split; [discriminate | rewrite <- Herror; exact Hlast].
  - rewrite Hevents, Herror.
    split; [right; reflexivity |].
    split; [split; [discriminate | intros [Hin | [Hin | []]]; discriminate Hin] |].
    split; [split; intros [Hin | [Hin | []]]; discriminate Hin |].
    split; [intros [Hin | [Hin | []]]; discriminate Hin |].
    split; [discriminate | rewrite <- Herror; exact Hlast].
  - rewrite Hevents, Herror.
    split; [right; reflexivity |].
    split; [split; [discriminate | intros [Hin | []]; discriminate Hin] |].
    split; [split; intros [Hin | []]; discriminate Hin |].
    split; [intros [Hin | []]; discriminate Hin |].
    split; [discriminate | rewrite <- Herror; exact Hlast].
  - rewrite Hevents, Hsuccess.
    split; [left; reflexivity |].
    split; [split; [intros _; right; left; reflexivity | reflexivity] |].
    split; [split; intros _; [right; right; left; reflexivity | right; left; reflexivity] |].
    split.
    { intros Hin. apply in_app_or in Hin as [Hin | Hin].
      - destruct Hin as [Hin | [Hin | [Hin | [Hin | []]]]]; discriminate Hin.
      - destruct (Htail _ Hin) as [error Herror]. discriminate Herror. }
    split; [| intros _ _; reflexivity].
    intros _. split; [exact Hsend |].
    exists r. split; [exact Hreply | exact Hok].
Qed.

(** On the sample page: an accepted sign-up ends as a success. *)
Lemma submit_success_iff_witness :
  classList
    (messageDiv
       (run (submit (Sample.server Rejected
                       (Sample.json_response 200 (Sample.says "Signed up"))))
            Sample.filled))
  = ["success"].
Proof.
  destruct (submit_success_iff
              (Sample.server Rejected (Sample.json_response 200 (Sample.says "Signed up")))
              Sample.filled) as (_ & _ & _ & _ & _ & _ & Haccepted).
  exact (Haccepted eq_refl eq_refl).
Defined.

(** ** Loading *)

(** X8: [fetchActivities] never looks at the status of the response: a
    listing answered with an error status and a JSON map is drawn like any
    other, with no failure message and nothing written to the console. *)
Theorem load_ignores_status (net : Network) (refreshDropdown : bool) (p : Page)
    (r : Response ActivityMap) (activities : ActivityMap) :
  list_activities net (requests_sent p) = Responded r ->
  ok r = false ->
  parsed r = Some activities ->
  activitiesList (run (fetchActivities net refreshDropdown) p)
  = {| markup := ""; children := map activityCard activities |}
  /\ events_of (fetchActivities net refreshDropdown) p
     = [Enter_fetchActivities refreshDropdown;
        Fetch {| method := GET; url := "/activities"; headers := []; body := None |}].
Proof.
  intros Hreply _ Hbody. unfold events_of, run.
  rewrite (fetchActivities_rendered _ _ _ r activities Hreply Hbody).
  cbn [snd rendered emit activitiesList trace].
  rewrite <- app_assoc, skipn_app_exact. split; reflexivity.
Qed.

Lemma load_ignores_status_witness :
  activitiesList
    (run (fetchActivities
            (Sample.server (Sample.json_response 500 Sample.activities) Rejected) true)
         Sample.blank)
  = {| markup := ""; children := map activityCard Sample.activities |}.
Proof.
  exact (proj1 (load_ignores_status
                  (Sample.server (Sample.json_response 500 Sample.activities) Rejected)
                  true Sample.blank
                  {| status := 500; parsed := Some Sample.activities |}
                  Sample.activities eq_refl eq_refl eq_refl)).
Defined.

(** X9: what a load leaves alone.  Whatever the reply, [fetchActivities]
    sends exactly its one GET request and touches neither the message area,
    nor the timers, nor the email field; the dropdown is untouched whenever
    [refreshDropdown] is false, and also, even with [refreshDropdown] true,
    when the fetch is rejected or the body of the response is not JSON
    (lines 10 and 11 fail before line 17 is reached). *)
Theorem load_frame (net : Network) (refreshDropdown : bool) (p : Page) :
  fetches (events_of (fetchActivities net refreshDropdown) p)
  = [{| method := GET; url := "/activities"; headers := []; body := None |}]
  /\ messageDiv (run (fetchActivities net refreshDropdown) p) = messageDiv p
  /\ timers (run (fetchActivities net refreshDropdown) p) = timers p
  /\ emailInput (run (fetchActivities net refreshDropdown) p) = emailInput p
  /\ (refreshDropdown = false ->
      activitySelect (run (fetchActivities net refreshDropdown) p) = activitySelect p)
  /\ (no_payload (list_activities net (requests_sent p)) = true ->
      activitySelect (run (fetchActivities net refreshDropdown) p) = activitySelect p).
Proof.
  unfold events_of, run.
  destruct (payload_or_not (list_activities net (requests_sent p)))
    as [Hfail | (r & activities & Hreply & Hbody)].
  - rewrite fetchActivities_failed by assumption.
    cbn [snd load_failed emit trace messageDiv timers emailInput activitySelect].
    rewrite <- !app_assoc, skipn_app_exact.
    repeat split; reflexivity.
  - rewrite (fetchActivities_rendered _ _ _ r activities Hreply Hbody).
    cbn [snd rendered emit trace messageDiv timers emailInput activitySelect].
    rewrite <- !app_assoc, skipn_app_exact.
    repeat split; try reflexivity.
    + intros ->. reflexivity.
    + rewrite Hreply. cbn. rewrite Hbody. discriminate.
Qed.

Lemma load_frame_witness :
  activitySelect
    (run (fetchActivities (Sample.server (Sample.not_json 200) Rejected) true) Sample.filled)
  = activitySelect Sample.filled.
Proof.
  destruct (load_frame (Sample.server (Sample.not_json 200) Rejected) true Sample.filled)
    as (_ & _ & _ & _ & _ & Hkept).
  exact (Hkept eq_refl).
Defined.

Lemma requests_sent_after_load (net : Network) (refreshDropdown : bool) (p : Page) :
  requests_sent (run (fetchActivities net refreshDropdown) p) = S (requests_sent p).
Proof.
  unfold run.
  destruct (payload_or_not (list_activities net (requests_sent p)))
    as [Hfail | (r & activities & Hreply & Hbody)].
  - rewrite fetchActivities_failed by assumption.
    unfold requests_sent. cbn [snd load_failed emit trace].
    rewrite !filter_app, !length_app. cbn. lia.
  - rewrite (fetchActivities_rendered _ _ _ r activities Hreply Hbody).
    unfold requests_sent. cbn [snd rendered emit trace].
    rewrite !filter_app, !length_app. cbn. lia.
Qed.

(** X10: a reload replaces, it never adds.  After two loads in a row, the
    list container holds the cards of the second map only, and with
    [refreshDropdown] true the dropdown holds the placeholder and the names
    of the second map only, whatever the first load had drawn. *)
Theorem reload_replaces (net : Network) (first : bool) (p : Page)
    (r : Response ActivityMap) (activities : ActivityMap) :
  list_activities net (S (requests_sent p)) = Responded r ->
  parsed r = Some activities ->
  activitiesList (run (fetchActivities net true) (run (fetchActivities net first) p))
  = {| markup := ""; children := map activityCard activities |}
  /\ map value
       (options (activitySelect
          (run (fetchActivities net true) (run (fetchActivities net first) p))))
     = "" :: map fst activities.
Proof.
  intros Hreply Hbody.
  assert (Hsecond : list_activities net
                      (requests_sent (run (fetchActivities net first) p)) = Responded r).
  { now rewrite requests_sent_after_load. }
  unfold run at 1 3.
  rewrite (fetchActivities_rendered _ _ _ r activities Hsecond Hbody).
  cbn [snd rendered activitiesList activitySelect options map value placeholder].
  split; [reflexivity |]. f_equal. rewrite map_map. reflexivity.
Qed.

Lemma reload_replaces_witness :
  map value
    (options (activitySelect
       (run (fetchActivities
               (Sample.server (Sample.json_response 200 Sample.activities) Rejected) true)
          (run (fetchActivities
                  (Sample.server (Sample.json_response 200 Sample.activities) Rejected) true)
               Sample.blank))))
  = [""; "Chess Club"].
Proof.
  exact (proj2 (reload_replaces
                  (Sample.server (Sample.json_response 200 Sample.activities) Rejected)
                  true Sample.blank
                  {| status := 200; parsed := Some Sample.activities |}
                  Sample.activities eq_refl eq_refl)).
Defined.

(** ** Requests per run *)

(** X11: the requests of a submission.  When [encodeURIComponent] throws
    on a lone surrogate it sends none.  Otherwise it sends its POST request
    first; one GET for the listing follows when the POST is answered with a
    2xx status and a JSON object, and nothing follows when the POST is
    refused, when the fetch is rejected or when the body is not JSON: never
    more than two requests. *)
Theorem submit_requests (net : Network) (p : Page) :
  fetches (events_of (submit net) p)
  = (if form_sendable p
     then signup_request (select_value (activitySelect p)) (input_value (emailInput p))
          :: (if accepted_with_json (mutate net (requests_sent p) (form_request p))
              then [{| method := GET; url := "/activities"; headers := []; body := None |}]
              else [])
     else []).
Proof.
  destruct (form_sendable p) eqn:Hsend.
  - destruct (reply_kinds (mutate net (requests_sent p) (form_request p)))
      as [Hfail | [(r & result & Hreply & Hbody & Hok) | (r & result & Hreply & Hbody & Hok)]].
    + assert (Hacc : accepted_with_json (mutate net (requests_sent p) (form_request p))
                     = false).
      { destruct (mutate net (requests_sent p) (form_request p)) as [| r]; [reflexivity |].
        cbn in Hfail |- *. destruct (parsed r); [discriminate | apply andb_false_r]. }
      rewrite Hacc. unfold events_of, run. rewrite (submit_no_payload net p Hsend Hfail).
      cbn [snd trace]. rewrite skipn_app_exact. reflexivity.
    + assert (Hacc : accepted_with_json (mutate net (requests_sent p) (form_request p))
                     = true).
      { rewrite Hreply. cbn. now rewrite Hok, Hbody. }
      rewrite Hacc. unfold events_of, run.
      rewrite (submit_accepted net p r result Hsend Hreply Hbody Hok).
      destruct (payload_or_not (list_activities net (S (requests_sent p))))
        as [Hfail | (r' & activities & Hreload & Hmap)].
      * rewrite resume_without_payload by assumption.
        cbn [snd load_failed accepted trace]. rewrite <- app_assoc, skipn_app_exact.
        reflexivity.
      * rewrite Hreload, (resume_with_payload false r' activities) by assumption.
        cbn [snd rendered accepted trace]. rewrite skipn_app_exact. reflexivity.
    + assert (Hacc : accepted_with_json (mutate net (requests_sent p) (form_request p))
                     = false).
      { rewrite Hreply. cbn. now rewrite Hok. }
      rewrite Hacc. unfold events_of, run.
      rewrite (submit_refused net p r result Hsend Hreply Hbody Hok).
      cbn [snd trace]. rewrite skipn_app_exact. reflexivity.
  - rewrite (submit_unsendable_events net p Hsend). reflexivity.
Qed.

(** On the sample page: the two requests of an accepted sign-up, the one of
    a refused sign-up, and none with a lone surrogate in the email field. *)
Lemma submit_requests_witness :
  fetches (events_of (submit (Sample.server Rejected
                                (Sample.json_response 200 (Sample.says "Signed up"))))
                     Sample.filled)
  = [{| method := POST;
        url := "/activities/Chess%20Club/signup";
        headers := [("Content-Type", "application/x-www-form-urlencoded")];
        body := Some "email=b%40x.com" |};
     {| method := GET; url := "/activities"; headers := []; body := None |}]
  /\ fetches (events_of (submit (Sample.server Rejected
                                   (Sample.json_response 400 (Sample.refuses "Full"))))
                        Sample.filled)
     = [{| method := POST;
           url := "/activities/Chess%20Club/signup";
           headers := [("Content-Type", "application/x-www-form-urlencoded")];
           body := Some "email=b%40x.com" |}]
  /\ fetches (events_of (submit (Sample.server Rejected
                                   (Sample.json_response 200 (Sample.says "Signed up"))))
                        Sample.mistyped)
     = [].
Proof.
  split; [| split].
  - exact (submit_requests
             (Sample.server Rejected (Sample.json_response 200 (Sample.says "Signed up")))
             Sample.filled).
  - exact (submit_requests
             (Sample.server Rejected (Sample.json_response 400 (Sample.refuses "Full")))
             Sample.filled).
  - exact (submit_requests
             (Sample.server Rejected (Sample.json_response 200 (Sample.says "Signed up")))
             Sample.mistyped).
Defined.

(** X12: a sign-up can succeed while its reload fails.  When the POST is sent
    and accepted and the listing that follows gets no JSON answer, the message
    area still shows the server's message as a success, the list container
    shows the load failure text with no card, the dropdown keeps its
    options, and only the load's diagnostic is logged. *)
Theorem signup_accepted_reload_failed (net : Network) (p : Page)
    (r : Response Result) (result : Result) :
  form_sendable p = true ->
  mutate net (requests_sent p) (form_request p) = Responded r ->
  ok r = true ->
  parsed r = Some result ->
  no_payload (list_activities net (S (requests_sent p))) = true ->
  messageDiv (run (submit net) p)
  = {| text := match message result with Some t => t | None => "" end;
       classList := ["success"] |}
  /\ activitiesList (run (submit net) p)
     = {| markup := "<p>Failed to load activities. Please try again later.</p>";
          children := [] |}
  /\ options (activitySelect (run (submit net) p)) = options (activitySelect p)
  /\ events_of (submit net) p
     = [Fetch (form_request p); FormReset; Enter_fetchActivities false;
        Fetch activities_request;
        ConsoleError "Error fetching activities:"
          (failure_of (list_activities net (S (requests_sent p))))].
Proof.
  intros Hsend Hreply Hok Hbody Hfail. unfold events_of, run.
  rewrite (submit_accepted net p r result Hsend Hreply Hbody Hok).
  rewrite resume_without_payload by assumption.
  cbn [snd load_failed accepted messageDiv activitiesList activitySelect reset_select
         options trace].
  rewrite <- app_assoc, skipn_app_exact. repeat split; reflexivity.
Qed.

Lemma signup_accepted_reload_failed_witness :
  activitiesList
    (run (submit (Sample.server Rejected (Sample.json_response 200 (Sample.says "Signed up"))))
         Sample.filled)
  = {| markup := "<p>Failed to load activities. Please try again later.</p>";
       children := [] |}.
Proof.
  exact (proj1 (proj2 (signup_accepted_reload_failed
                         (Sample.server Rejected
                            (Sample.json_response 200 (Sample.says "Signed up")))
                         Sample.filled
                         {| status := 200; parsed := Some (Sample.says "Signed up") |}
                         (Sample.says "Signed up") eq_refl eq_refl eq_refl eq_refl eq_refl))).
Defined.

(** ** [encodeURIComponent] *)

Lemma length_append (a b : string) :
  String.length (a ++ b) = String.length a + String.length b.
Proof.
  induction a as [| c a IH]; cbn; [reflexivity | now rewrite IH].
Qed.

Lemma encoded_length (s : string) :
  String.length (percent_encode s) = String.length s + 2 * escaped_count s.
Proof.
  induction s as [| c s IH]; [reflexivity |].
  cbn [percent_encode escaped_count]. destruct (unreserved c).
  - cbn [String.length]. rewrite IH. lia.
  - rewrite length_append, IH. cbn [escape String.length]. lia.
Qed.

Lemma escaped_count_zero (s : string) :
  escaped_count s = 0 <-> all_chars unreserved s = true.
Proof.
  induction s as [| c s IH]; [split; reflexivity |].
  cbn [escaped_count all_chars]. destruct (unreserved c); cbn [andb Nat.add].
  - exact IH.
  - split; [lia | discriminate].
Qed.

(** The escaping lengthens its argument by two characters per escaped
    character, and returns it unchanged exactly when every character is an
    unreserved mark. *)
Lemma percent_encode_length (s : string) :
  String.length (percent_encode s) = String.length s + 2 * escaped_count s
  /\ (percent_encode s = s <-> all_chars unreserved s = true).
Proof.
  split; [apply encoded_length |]. split.
  - intros Hsame. apply escaped_count_zero.
    pose proof (encoded_length s) as Hlen. rewrite Hsame in Hlen. lia.
  - intros Hall.
    induction s as [| c s IH]; [reflexivity |].
    cbn [all_chars] in Hall. apply andb_true_iff in Hall as [Hc Hs].
    cbn [percent_encode]. rewrite Hc. now rewrite IH.
Qed.

Lemma append_inv_tail (a b c : string) : a ++ c = b ++ c -> a = b.
Proof.
  revert b. induction a as [| x a IH]; intros b Heq.
  - destruct b as [| y b]; [reflexivity |].
    apply (f_equal String.length) in Heq.
    cbn in Heq. rewrite length_append in Heq. lia.
  - destruct b as [| y b].
    + apply (f_equal String.length) in Heq.
      cbn in Heq. rewrite length_append in Heq. lia.
    + cbn in Heq. injection Heq as -> Heq. f_equal. now apply IH.
Qed.

Lemma percent_encode_injective (a b : string) :
  percent_encode a = percent_encode b -> a = b.
Proof.
  intros Heq. apply (f_equal percent_decode) in Heq.
  rewrite !percent_encode_decodes in Heq. now injection Heq.
Qed.

(** X13: the requests lose nothing of their arguments: two sign-up requests
    (or two unregister requests) are equal only when they are for the same
    activity and the same email. *)
Theorem requests_distinguish (activity email activity' email' : string) :
  (signup_request activity email = signup_request activity' email' ->
   activity = activity' /\ email = email')
  /\ (unregister_request activity email = unregister_request activity' email' ->
      activity = activity' /\ email = email').
Proof.
  split; intros Heq.
  - unfold signup_request, signup_fetch in Heq. injection Heq as Hurl Hbody. split.
    + apply percent_encode_injective.
      apply (append_inv_tail _ _ "/signup").
      cbn in Hurl. repeat (injection Hurl as Hurl). exact Hurl.
    + apply percent_encode_injective.
      cbn in Hbody. repeat (injection Hbody as Hbody). exact Hbody.
  - unfold unregister_request, unregister_fetch in Heq. injection Heq as Hurl Hbody. split.
    + apply percent_encode_injective.
      apply (append_inv_tail _ _ "/unregister").
      cbn in Hurl. repeat (injection Hurl as Hurl). exact Hurl.
    + apply percent_encode_injective.
      cbn in Hbody. repeat (injection Hbody as Hbody). exact Hbody.
Qed.

Lemma all_chars_weaken (f g : ascii -> bool) (s : string) :
  (forall c, f c = true -> g c = true) ->
  all_chars f s = true -> all_chars g s = true.
Proof.
  intros Hfg. induction s as [| c s IH]; [reflexivity |].
  cbn [all_chars]. intros Hall. apply andb_true_iff in Hall as [Hc Hs].
  rewrite (Hfg c Hc). now apply IH.
Qed.

(** A one-character needle does not occur in a string without it. *)
Lemma occurrences_skip_char (c : ascii) (s rest : string) :
  all_chars (fun x => negb (Ascii.eqb c x)) s = true ->
  occurrences (String c EmptyString) (s ++ rest) = occurrences (String c EmptyString) rest.
Proof.
  induction s as [| x s IH]; intros Hall; [reflexivity |].
  cbn [all_chars] in Hall. apply andb_true_iff in Hall as [Hx Hs].
  change (String x s ++ rest) with (String x (s ++ rest)).
  cbn [occurrences starts_with].
  destruct (Ascii.eqb c x); [discriminate Hx |].
  cbn [andb Nat.add]. now apply IH.
Qed.

Lemma encoded_without (c : ascii) (s : string) :
  existsb (Ascii.eqb c) ["/"; "&"; "="; " "; "?"; "#"]%char = true ->
  all_chars (fun x => negb (Ascii.eqb c x)) (percent_encode s) = true.
Proof.
  intros Hc.
  apply (all_chars_weaken
           (fun x => negb (existsb (Ascii.eqb x) ["/"; "&"; "="; " "; "?"; "#"]%char)));
    [| apply percent_encode_no_separator].
  intros x Hx. destruct (Ascii.eqb_spec c x) as [<- | _]; [| reflexivity].
  rewrite Hc in Hx. discriminate Hx.
Qed.

(** X14: no activity name and no email can reshape a request.  The URL of
    every sign-up or unregister request has exactly the three slashes of
    [/activities/{name}/signup] or [/activities/{name}/unregister] and no
    [?] or [#]; its body has exactly the one [=] of [email=] and no [&]. *)
Theorem requests_keep_their_shape (activity email : string) :
  (occurrences "/" (url (signup_request activity email)) = 3
   /\ occurrences "?" (url (signup_request activity email)) = 0
   /\ occurrences "#" (url (signup_request activity email)) = 0
   /\ occurrences "/" (url (unregister_request activity email)) = 3
   /\ occurrences "?" (url (unregister_request activity email)) = 0
   /\ occurrences "#" (url (unregister_request activity email)) = 0)
  /\ (exists sent,
        body (signup_request activity email) = Some sent
        /\ body (unregister_request activity email) = Some sent
        /\ occurrences "=" sent = 1
        /\ occurrences "&" sent = 0).
Proof.
  assert (Hskip : forall c rest,
            existsb (Ascii.eqb c) ["/"; "&"; "="; " "; "?"; "#"]%char = true ->
            occurrences (String c EmptyString) (percent_encode activity ++ rest)
            = occurrences (String c EmptyString) rest).
  { intros c rest Hc. apply occurrences_skip_char. now apply encoded_without. }
  assert (Hbody : forall c,
            existsb (Ascii.eqb c) ["/"; "&"; "="; " "; "?"; "#"]%char = true ->
            occurrences (String c EmptyString) (percent_encode email) = 0).
  { intros c Hc. rewrite <- (append_nil_r (percent_encode email)).
    rewrite occurrences_skip_char by now apply encoded_without. reflexivity. }
  split.
  - unfold signup_request, signup_fetch, unregister_request, unregister_fetch.
    cbn [url].
    repeat split;
      cbn [append occurrences starts_with Ascii.eqb Bool.eqb andb Nat.add];
      rewrite Hskip by reflexivity; reflexivity.
  - exists ("email=" ++ percent_encode email).
    split; [reflexivity | split; [reflexivity |]].
    split; cbn [append occurrences starts_with Ascii.eqb Bool.eqb andb Nat.add];
      rewrite Hbody by reflexivity; reflexivity.
Qed.

(** ** Cards of plain-text data *)

Lemma button_in_item (name email rest : string) :
  markup_free name = true -> markup_free email = true ->
  occurrences button_open (participantItem name email ++ rest) =
  S (occurrences button_open rest).
Proof.
  intros Hn He.
  unfold participantItem, button_open, q, dq, delete_glyph.
  count_tags.
Qed.

Lemma buttons_in_items (name : string) (emails : list string) (rest : string) :
  markup_free name = true -> forallb markup_free emails = true ->
  occurrences button_open (join (map (participantItem name) emails) ++ rest) =
  List.length emails + occurrences button_open rest.
Proof.
  intros Hn.
  induction emails as [| email more IH]; intros He; [reflexivity |].
  cbn [forallb] in He. apply andb_true_iff in He as [He Hmore].
  cbn [map]. rewrite join_cons, append_assoc.
  rewrite button_in_item by assumption. rewrite IH by assumption. reflexivity.
Qed.

Lemma placeholder_in_item (name email rest : string) :
  markup_free name = true -> markup_free email = true ->
  occurrences placeholder_open (participantItem name email ++ rest) =
  occurrences placeholder_open rest.
Proof.
  intros Hn He.
  unfold participantItem, placeholder_open, q, dq, delete_glyph.
  count_tags.
Qed.

Lemma placeholder_in_items (name : string) (emails : list string) (rest : string) :
  markup_free name = true -> forallb markup_free emails = true ->
  occurrences placeholder_open (join (map (participantItem name) emails) ++ rest) =
  occurrences placeholder_open rest.
Proof.
  intros Hn.
  induction emails as [| email more IH]; intros He; [reflexivity |].
  cbn [forallb] in He. apply andb_true_iff in He as [He Hmore].
  cbn [map]. rewrite join_cons, append_assoc.
  rewrite placeholder_in_item by assumption. now apply IH.
Qed.

Ltac count_in_card items_lemma :=
  repeat rewrite append_assoc;
  repeat first
    [ rewrite occurrences_skip_text by assumption
    | rewrite items_lemma by assumption
    | progress (cbn [occurrences starts_with append Ascii.eqb Bool.eqb andb Nat.add]) ].

(** X15: in a card of plain-text data (no [<] in the name, the description,
    the schedule and the emails) there is exactly one delete button per
    participant, and the "No participants yet" paragraph is there exactly
    when the activity has no participant: never both rows and placeholder,
    never neither. *)
Theorem card_rows_xor_placeholder (name : string) (details : Activity) :
  forallb markup_free
    (name :: description details :: schedule details :: participants details) = true ->
  occurrences button_open (innerHTML (activityCard (name, details)))
  = List.length (participants details)
  /\ occurrences placeholder_open (innerHTML (activityCard (name, details)))
     = (if (List.length (participants details) =? 0)%nat then 1 else 0).
Proof.
  intros Hplain. cbn [forallb] in Hplain.
  apply andb_true_iff in Hplain as [Hn Hplain].
  apply andb_true_iff in Hplain as [Hd Hplain].
  apply andb_true_iff in Hplain as [Hs He].
  pose proof (markup_free_number (Z.of_nat (List.length (participants details)))) as Hlen.
  pose proof (markup_free_number (max_participants details)) as Hmax.
  cbn [activityCard innerHTML fst snd].
  unfold cardHTML, card_head, capacity_paragraph, capacity, section_open, section_close,
    participantsList, no_participants.
  destruct (participants details) as [| email more] eqn:Hp.
  - cbn [List.length Nat.ltb Nat.leb Nat.eqb]. split.
    + unfold button_open at 1, q, dq. count_in_card buttons_in_items. reflexivity.
    + unfold placeholder_open at 1, q, dq. count_in_card placeholder_in_items. reflexivity.
  - change (0 <? List.length (email :: more))%nat with true. cbv iota.
    change (List.length (email :: more) =? 0)%nat with false. cbv iota.
    split.
    + unfold button_open at 1, q, dq. count_in_card buttons_in_items.
      cbn. lia.
    + unfold placeholder_open at 1, q, dq. count_in_card placeholder_in_items.
      reflexivity.
Qed.

Lemma card_rows_xor_placeholder_witness :
  occurrences button_open (innerHTML (activityCard ("Chess Club", Sample.chess_club))) = 1.
Proof.
  exact (proj1 (card_rows_xor_placeholder "Chess Club" Sample.chess_club eq_refl)).
Defined.

(** ** Interpolated text is not escaped *)

Lemma starts_with_app (needle s rest : string) :
  starts_with needle s = true -> starts_with needle (s ++ rest) = true.
Proof.
  revert s. induction needle as [| a needle IH]; intros s Hs; [reflexivity |].
  destruct s as [| b s]; [discriminate Hs |].
  cbn [starts_with append] in *. apply andb_true_iff in Hs as [Hab Hs].
  rewrite Hab. now apply IH.
Qed.

Lemma occurrences_app_r (needle s rest : string) :
  occurrences needle s <= occurrences needle (s ++ rest).
Proof.
  induction s as [| c s IH].
  - cbn [append occurrences]. destruct needle as [| a needle].
    + destruct rest; cbn; lia.
    + cbn. lia.
  - change (String c s ++ rest) with (String c (s ++ rest)).
    cbn [occurrences].
    destruct (starts_with needle (String c s)) eqn:Hs.
    + change (String c (s ++ rest)) with (String c s ++ rest).
      rewrite (starts_with_app _ _ rest Hs). lia.
    + lia.
Qed.

Lemma occurrences_app_l (needle before s : string) :
  occurrences needle s <= occurrences needle (before ++ s).
Proof.
  induction before as [| c before IH]; [cbn; lia |].
  change (String c before ++ s) with (String c (before ++ s)).
  cbn [occurrences]. lia.
Qed.

Lemma occurrences_inside (needle before s after : string) :
  occurrences needle s <= occurrences needle (before ++ s ++ after).
Proof.
  etransitivity; [apply (occurrences_app_r needle s after) | apply occurrences_app_l].
Qed.

(** X16: the script never escapes what it interpolates.  Whatever tag is
    looked for, every occurrence of it in the name, the description or the
    schedule of an activity, or in the email of one of its participants, is
    an occurrence in the markup of the card: markup in the data becomes
    markup of the page. *)
Theorem interpolation_is_not_escaped (tag name : string) (details : Activity) :
  occurrences tag name <= occurrences tag (innerHTML (activityCard (name, details)))
  /\ occurrences tag (description details)
     <= occurrences tag (innerHTML (activityCard (name, details)))
  /\ occurrences tag (schedule details)
     <= occurrences tag (innerHTML (activityCard (name, details)))
  /\ (forall email,
        In email (participants details) ->
        occurrences tag email <= occurrences tag (innerHTML (activityCard (name, details)))).
Proof.
  cbn [activityCard innerHTML fst snd].
  unfold cardHTML, card_head.
  repeat rewrite append_assoc.
  split; [| split; [| split]].
  - apply (occurrences_inside tag "
          <h4>" name).
  - match goal with
    | |- _ <= occurrences _ (?a ++ ?n ++ ?b ++ description details ++ ?rest) =>
        rewrite <- (append_assoc n b), <- (append_assoc a (n ++ b));
        apply occurrences_inside
    end.
  - match goal with
    | |- _ <= occurrences _ (?a ++ ?n ++ ?b ++ ?d ++ ?c ++ schedule details ++ ?rest) =>
        rewrite <- (append_assoc d c), <- (append_assoc b (d ++ c)),
          <- (append_assoc n (b ++ d ++ c)), <- (append_assoc a (n ++ b ++ d ++ c));
        apply occurrences_inside
    end.
  - intros email Hin.
    assert (Hitem : occurrences tag email <= occurrences tag (participantItem name email)).
    { unfold participantItem. repeat rewrite append_assoc.
      match goal with
      | |- _ <= occurrences _ (?a ++ ?b ++ ?c ++ ?d ++ ?e ++ email ++ ?rest) =>
          rewrite <- (append_assoc d e), <- (append_assoc c (d ++ e)),
            <- (append_assoc b (c ++ d ++ e)), <- (append_assoc a (b ++ c ++ d ++ e));
          apply occurrences_inside
      end. }
    assert (Hlist : occurrences tag (participantItem name email)
                    <= occurrences tag (participantsList name details)).
    { unfold participantsList.
      destruct (participants details) as [| first more] eqn:Hp; [contradiction |].
      change (0 <? List.length (first :: more))%nat with true. cbv iota.
      apply (Nat.le_trans _
               (occurrences tag (join (map (participantItem name) (first :: more)))));
        [| do 3 (etransitivity; [| apply occurrences_app_l]); apply occurrences_app_r].
      clear Hp. revert Hin. generalize (first :: more) as emails.
      induction emails as [| e emails IH]; intros Hin; [contradiction |].
      cbn [map]. rewrite join_cons. destruct Hin as [-> | Hin].
      - apply occurrences_app_r.
      - etransitivity; [now apply IH | apply occurrences_app_l]. }
    etransitivity; [exact Hitem |]. etransitivity; [exact Hlist |].
    unfold capacity_paragraph, section_open.
    repeat rewrite append_assoc.
    repeat match goal with
           | |- _ <= occurrences _ (?a ++ ?rest) =>
               lazymatch a with
               | participantsList _ _ => fail
               | _ => apply (Nat.le_trans _ (occurrences tag rest));
                      [| apply occurrences_app_l]
               end
           end.
    apply occurrences_app_r.
Qed.
